(** * go-blar: metadata parser, registry, hooks, routes and repository

  A shallow embedding of the Go sources of go-blar
  (internal/meta, internal/hooks, internal/http, internal/repo) and the
  properties its specification states about them.

  Conventions of the embedding:
  - a Go [string] is a Rocq [string], the sequence of its bytes. On an
    ASCII string [[]rune(s)] is this sequence, and [strings.ToLower] and
    [strings.TrimSpace] are the functions defined below; outside ASCII Go
    decodes UTF-8 and follows the Unicode tables, which are not embedded.
    Every property that depends on the runes, the case or the white space
    of a string is therefore stated for ASCII strings ([ascii_only]);
  - a Go pointer to an [EntityMeta] is a location in an explicit heap, so
    that two results can be compared for being the same instance;
  - a panic is a result of its own, distinct from a returned error. *)

From Stdlib Require Import Ascii String NArith List Bool.
From stdpp Require Import base option list strings gmap.


(* ===================================================================== *)
(** * Part I: the embedding                                                *)
(* ===================================================================== *)

(** A Go [error] value, by its message; [None] is nil. *)
Definition error := string.

(** ** The parts of Go's [strings] package the sources call *)

Module strings.

Definition rune := ascii.

Definition isUpper (r : rune) : bool :=
  (65 <=? N_of_ascii r)%N && (N_of_ascii r <=? 90)%N.   (* r >= 'A' && r <= 'Z' *)

Definition isLower (r : rune) : bool :=
  (97 <=? N_of_ascii r)%N && (N_of_ascii r <=? 122)%N.  (* r >= 'a' && r <= 'z' *)

(** unicode.IsSpace on ASCII: '\t', '\n', '\v', '\f', '\r', ' '. *)
Definition isSpace (r : rune) : bool :=
  ((9 <=? N_of_ascii r)%N && (N_of_ascii r <=? 13)%N) || (N_of_ascii r =? 32)%N.

Definition toLowerRune (r : rune) : rune :=
  if isUpper r then ascii_of_N (N_of_ascii r + 32) else r.

(** [strings.ToLower] on an ASCII string: 'A'..'Z' to 'a'..'z'. *)
Fixpoint ToLower (s : string) : string :=
  match s with
  | EmptyString => EmptyString
  | String c s' => String (toLowerRune c) (ToLower s')
  end.

Fixpoint HasPrefix (s prefix : string) : bool :=
  match prefix, s with
  | EmptyString, _ => true
  | String _ _, EmptyString => false
  | String p prefix', String c s' => Ascii.eqb c p && HasPrefix s' prefix'
  end.

Fixpoint dropString (n : nat) (s : string) : string :=
  match n, s with
  | S n', String _ s' => dropString n' s'
  | _, _ => s
  end.

Definition TrimPrefix (s prefix : string) : string :=
  if HasPrefix s prefix then dropString (String.length prefix) s else s.

Fixpoint Contains (s substr : string) : bool :=
  HasPrefix s substr ||
  match s with
  | EmptyString => false
  | String _ s' => Contains s' substr
  end.

(** [strings.Split(s, sep)] for the one-character separators the sources
    use; a string without the separator gives the one-element slice. *)
Fixpoint Split (s : string) (sep : ascii) : list string :=
  match s with
  | EmptyString => [EmptyString]
  | String c s' =>
      if Ascii.eqb c sep then EmptyString :: Split s' sep
      else match Split s' sep with
           | h :: t => String c h :: t
           | [] => [String c EmptyString]
           end
  end.

Fixpoint TrimLeft (s : string) : string :=
  match s with
  | EmptyString => EmptyString
  | String c s' => if isSpace c then TrimLeft s' else s
  end.

Fixpoint TrimRight (s : string) : string :=
  match s with
  | EmptyString => EmptyString
  | String c s' =>
      match TrimRight s' with
      | EmptyString => if isSpace c then EmptyString else String c EmptyString
      | r => String c r
      end
  end.

(** [strings.TrimSpace] on an ASCII string. *)
Definition TrimSpace (s : string) : string := TrimRight (TrimLeft s).

End strings.

(** ** ASCII strings

    The strings on which a byte is a rune: every byte below 0x80
    ([utf8.RuneSelf]). *)

Module ascii_notions.

Definition ascii_rune (c : ascii) : bool := (N_of_ascii c <? 128)%N.

Definition ascii_only (s : string) : bool :=
  forallb ascii_rune (list_ascii_of_string s).

End ascii_notions.

(** ** internal/meta/parse.go: the naming transform *)

Module naming.
Import strings.

Definition underscore : rune := "_"%char.

(** [runes[i]]; every use below is guarded as in the source. *)
Definition rune_at (runes : list rune) (i : nat) : rune :=
  nth i runes zero.

(** The body of [for i, r := range runes]: [rest] is what the loop has
    still to visit, [result] the builder. *)
Fixpoint toSnakeCase_loop (runes : list rune) (i : nat) (rest : list rune)
    (result : list rune) : list rune :=
  match rest with
  | [] => result
  | r :: rest' =>
      if Nat.eqb i 0 then
        toSnakeCase_loop runes (S i) rest' (result ++ [r])
      else if Ascii.eqb r underscore then
        toSnakeCase_loop runes (S i) rest' (result ++ [r])
      else
        let result :=
          if isUpper r then
            if negb (Ascii.eqb (rune_at runes (i - 1)) underscore)
               && isLower (rune_at runes (i - 1))
            then result ++ [underscore]
            else if negb (Ascii.eqb (rune_at runes (i - 1)) underscore)
                    && (i + 1 <? length runes)
                    && isLower (rune_at runes (i + 1))
            then result ++ [underscore]
            else result
          else result in
        toSnakeCase_loop runes (S i) rest' (result ++ [r])
  end.

Definition toSnakeCase (s : string) : string :=
  let runes := list_ascii_of_string s in
  ToLower (string_of_list_ascii (toSnakeCase_loop runes 0 runes [])).

(** *** The transform as a rule: where an underscore goes

    [by_rule rule s] writes the characters of [s] in order, an underscore
    before position [i] exactly when [rule] says so, and lower-cases the
    outcome. *)
Definition by_rule (rule : list rune -> nat -> bool) (s : string) : string :=
  let runes := list_ascii_of_string s in
  ToLower (string_of_list_ascii
    (flat_map (fun i => (if rule runes i then [underscore] else [])
                        ++ [rune_at runes i])
              (seq 0 (length runes)))).

(** The rule in the specification's words: before an uppercase character,
    not at index 0, when (a) the previous character is lowercase or (b)
    the previous character is uppercase and the next one is lowercase. *)
Definition rule_as_specified (runes : list rune) (i : nat) : bool :=
  negb (Nat.eqb i 0)
  && isUpper (rune_at runes i)
  && (isLower (rune_at runes (i - 1))
      || (isUpper (rune_at runes (i - 1))
          && (i + 1 <? length runes) && isLower (rune_at runes (i + 1)))).

(** The rule the code follows: in (b) the previous character is any
    character that is neither lowercase nor an underscore. *)
Definition rule_of_code (runes : list rune) (i : nat) : bool :=
  negb (Nat.eqb i 0)
  && isUpper (rune_at runes i)
  && (isLower (rune_at runes (i - 1))
      || (negb (isLower (rune_at runes (i - 1)))
          && negb (Ascii.eqb (rune_at runes (i - 1)) underscore)
          && (i + 1 <? length runes) && isLower (rune_at runes (i + 1)))).

Definition no_upper (s : string) : Prop :=
  Forall (fun c => isUpper c = false) (list_ascii_of_string s).

End naming.

(** ** The parts of Go's [reflect] package the parser calls

    A struct tag is modelled by the key/value pairs its conventional
    format [key:"value" key:"value"] denotes, in order; a type by what
    [String()], [Name()], [Kind()], [Elem()] and the field accessors report.
    A struct type lists its declared fields, which is what [NumField] and
    [Field] range over; [FieldByName] looks among these. The struct types
    of the embedding have no embedded struct, so that no field is promoted
    into them. *)

Module reflect.

Definition StructTag := list (string * string).

(** [tag.Get(key)]: the value of the first pair for [key], else the empty
    string. *)
Fixpoint Get (tag : StructTag) (key : string) : string :=
  match tag with
  | [] => ""
  | (k, v) :: tag' => if String.eqb k key then v else Get tag' key
  end.

Inductive rtype :=
| TOther (str name : string)       (* neither pointer nor struct: int, string, []T, ... *)
| TPtr (elem : rtype)
| TStruct (str name : string) (fields : list FieldDecl)
with FieldDecl :=
| mkFieldDecl (name pkgPath : string) (typ : rtype) (tag : StructTag).

(** The kinds the parser tells apart. *)
Inductive Kind := Ptr | Struct | Other.

Definition Kind_of (t : rtype) : Kind :=
  match t with
  | TOther _ _ => Other
  | TPtr _ => Ptr
  | TStruct _ _ _ => Struct
  end.

Definition Kind_eqb (a b : Kind) : bool :=
  match a, b with
  | Ptr, Ptr | Struct, Struct | Other, Other => true
  | _, _ => false
  end.

(** [t.Elem()], called on pointer types only. *)
Definition Elem (t : rtype) : rtype :=
  match t with
  | TPtr e => e
  | _ => t
  end.

Fixpoint String_ (t : rtype) : string :=
  match t with
  | TOther str _ => str
  | TPtr e => "*" +:+ String_ e
  | TStruct str _ _ => str
  end.

Definition Name (t : rtype) : string :=
  match t with
  | TOther _ name => name
  | TPtr _ => ""
  | TStruct _ name _ => name
  end.

(** The declared fields; [None] stands for the panic of [NumField], [Field]
    and [FieldByName] on a type that is not a struct. *)
Definition fields_of (t : rtype) : option (list FieldDecl) :=
  match t with
  | TStruct _ _ fields => Some fields
  | _ => None
  end.

Module StructField.
Record t := mk {
  Name : string;
  PkgPath : string;        (* empty for exported fields *)
  Type_ : rtype;
  Tag : StructTag;
  Index : list nat
}.
End StructField.

(** [t.Field(i)] for the declaration at position [i]. *)
Definition Field (d : FieldDecl) (i : nat) : StructField.t :=
  match d with
  | mkFieldDecl name pkgPath typ tag =>
      StructField.mk name pkgPath typ tag [i]
  end.

Fixpoint FieldByName_from (fields : list FieldDecl) (i : nat) (name : string)
    : option StructField.t :=
  match fields with
  | [] => None
  | d :: rest =>
      if String.eqb (StructField.Name (Field d i)) name then Some (Field d i)
      else FieldByName_from rest (S i) name
  end.

(** [t.FieldByName(name)]: the field and [ok]. *)
Definition FieldByName (fields : list FieldDecl) (name : string)
    : option StructField.t :=
  FieldByName_from fields 0 name.

(** A value of type [any] is modelled by its dynamic type, [None] for the
    nil interface: the parser looks at nothing else. *)
Definition any := option rtype.

Definition TypeOf (entity : any) : option rtype := entity.

End reflect.

(** ** internal/meta: the metadata model *)

Module ForeignKey.
Record t := mk { TableName : string; FieldName : string }.
End ForeignKey.

Module ManyToMany.
Record t := mk { TableName : string; FieldName : string }.
End ManyToMany.

Module FieldMeta.
Record t := mk {
  Name : string;
  Type_ : reflect.rtype;
  Index : list nat;
  IsPK : bool;
  FK : option ForeignKey.t;
  Nested : bool;
  M2M : option ManyToMany.t;
  List : bool;
  Hidden : bool;
  ReadOnly : bool
}.

Definition set_IsPK (v : bool) (fm : t) : t :=
  mk (Name fm) (Type_ fm) (Index fm) v (FK fm) (Nested fm) (M2M fm)
     (List fm) (Hidden fm) (ReadOnly fm).
Definition set_FK (v : option ForeignKey.t) (fm : t) : t :=
  mk (Name fm) (Type_ fm) (Index fm) (IsPK fm) v (Nested fm) (M2M fm)
     (List fm) (Hidden fm) (ReadOnly fm).
Definition set_Nested (v : bool) (fm : t) : t :=
  mk (Name fm) (Type_ fm) (Index fm) (IsPK fm) (FK fm) v (M2M fm)
     (List fm) (Hidden fm) (ReadOnly fm).
Definition set_M2M (v : option ManyToMany.t) (fm : t) : t :=
  mk (Name fm) (Type_ fm) (Index fm) (IsPK fm) (FK fm) (Nested fm) v
     (List fm) (Hidden fm) (ReadOnly fm).
Definition set_List (v : bool) (fm : t) : t :=
  mk (Name fm) (Type_ fm) (Index fm) (IsPK fm) (FK fm) (Nested fm) (M2M fm)
     v (Hidden fm) (ReadOnly fm).
Definition set_Hidden (v : bool) (fm : t) : t :=
  mk (Name fm) (Type_ fm) (Index fm) (IsPK fm) (FK fm) (Nested fm) (M2M fm)
     (List fm) v (ReadOnly fm).
Definition set_ReadOnly (v : bool) (fm : t) : t :=
  mk (Name fm) (Type_ fm) (Index fm) (IsPK fm) (FK fm) (Nested fm) (M2M fm)
     (List fm) (Hidden fm) v.
End FieldMeta.

Module NestedMeta.
Record t := mk { Name : string; Type_ : reflect.rtype; Index : list nat }.
End NestedMeta.

Module AggregateMeta.
Record t := mk {
  Name : string;
  Type_ : string;     (* "count", "sum", ... *)
  Field : string      (* nested field path *)
}.
End AggregateMeta.

Module EntityMeta.
Record t := mk {
  Type_ : reflect.rtype;
  Name : string;
  TableName : string;
  PKField : option FieldMeta.t;
  Fields : list FieldMeta.t;
  Nested : list NestedMeta.t;
  Aggregates : list AggregateMeta.t
}.

Definition set_TableName (v : string) (em : t) : t :=
  mk (Type_ em) (Name em) v (PKField em) (Fields em) (Nested em) (Aggregates em).
Definition set_PKField (v : option FieldMeta.t) (em : t) : t :=
  mk (Type_ em) (Name em) (TableName em) v (Fields em) (Nested em) (Aggregates em).
Definition set_Fields (v : list FieldMeta.t) (em : t) : t :=
  mk (Type_ em) (Name em) (TableName em) (PKField em) v (Nested em) (Aggregates em).

(** [em.GetFieldByName(name)]; [None] is the nil result. *)
Fixpoint GetFieldByName_in (fields : list FieldMeta.t) (name : string)
    : option FieldMeta.t :=
  match fields with
  | [] => None
  | f :: rest =>
      if String.eqb (FieldMeta.Name f) name then Some f
      else GetFieldByName_in rest name
  end.

Definition GetFieldByName (em : t) (name : string) : option FieldMeta.t :=
  GetFieldByName_in (Fields em) name.

Fixpoint GetAggregateByName_in (aggregates : list AggregateMeta.t)
    (name : string) : option AggregateMeta.t :=
  match aggregates with
  | [] => None
  | a :: rest =>
      if String.eqb (AggregateMeta.Name a) name then Some a
      else GetAggregateByName_in rest name
  end.

Definition GetAggregateByName (em : t) (name : string)
    : option AggregateMeta.t :=
  GetAggregateByName_in (Aggregates em) name.
End EntityMeta.

(** ** internal/meta/parse.go: the parser and the registry *)

Module meta.
Import strings naming reflect.

Definition semicolon : ascii := ";"%char.

(** One turn of [for _, part := range parts] in [parseField]. The
    aggregate descriptor of a [count:] or [sum:] fragment is built and
    dropped, as [_ = meta] does. *)
Definition parseField_part (fm : FieldMeta.t) (part : string) : FieldMeta.t :=
  let part := TrimSpace part in
  if String.eqb part "pk" then FieldMeta.set_IsPK true fm
  else if String.eqb part "nested" then FieldMeta.set_Nested true fm
  else if String.eqb part "list" then FieldMeta.set_List true fm
  else if String.eqb part "hidden" then FieldMeta.set_Hidden true fm
  else if String.eqb part "readonly" then FieldMeta.set_ReadOnly true fm
  else if HasPrefix part "fk:" then
    let fkTable := TrimPrefix part "fk:" in
    FieldMeta.set_FK (Some (ForeignKey.mk fkTable "")) fm
  else if HasPrefix part "m2m:" then
    let m2mTable := TrimPrefix part "m2m:" in
    FieldMeta.set_M2M (Some (ManyToMany.mk m2mTable "")) fm
  else if HasPrefix part "count:" then
    let fieldPath := TrimPrefix part "count:" in
    let meta := AggregateMeta.mk (FieldMeta.Name fm) "count" fieldPath in
    fm
  else if HasPrefix part "sum:" then
    let fieldPath := TrimPrefix part "sum:" in
    let meta := AggregateMeta.mk (FieldMeta.Name fm) "sum" fieldPath in
    fm
  else fm.

(** [parseField]; the result is a pointer in the source, [None] is nil. *)
Definition parseField (sf : StructField.t) : option FieldMeta.t :=
  let blarTag := Get (StructField.Tag sf) "go-blar" in
  let gormTag := Get (StructField.Tag sf) "gorm" in
  let fm := FieldMeta.mk (StructField.Name sf) (StructField.Type_ sf)
              (StructField.Index sf) false None false None false false false in
  let fm :=
    if negb (String.eqb blarTag "")
    then foldl parseField_part fm (Split blarTag semicolon)
    else fm in
  let fm :=
    if Contains gormTag "primaryKey" then FieldMeta.set_IsPK true fm else fm in
  Some fm.

Fixpoint parseGormTag_parts (parts : list string) : string :=
  match parts with
  | [] => ""
  | part :: rest =>
      let part := TrimSpace part in
      if HasPrefix part "table:" then TrimPrefix part "table:"
      else parseGormTag_parts rest
  end.

Definition parseGormTag (tag : string) : string :=
  if String.eqb tag "" then ""
  else parseGormTag_parts (Split tag semicolon).

(** The heap of entity descriptors and the package variable [registry]. *)
Definition loc := nat.

Record State := mkState {
  heap : list EntityMeta.t;
  registry : gmap string loc
}.

(** The state at program start: [registry = make(map[string]*EntityMeta)]. *)
Definition State_init : State := mkState [] ∅.

(** What a call of [Parse] comes to: the two results, or a panic. *)
Inductive result :=
| Returned (meta : option loc) (err : option error)
| Panicked.

(** The loop [for i := 0; i < t.NumField(); i++] from index [i] on, over the
    declarations not yet visited. *)
Fixpoint Parse_fields (fields : list FieldDecl) (i : nat) (meta : EntityMeta.t)
    : EntityMeta.t :=
  match fields with
  | [] => meta
  | d :: rest =>
      let sf := Field d i in
      if negb (String.eqb (StructField.PkgPath sf) "") then
        Parse_fields rest (S i) meta               (* skip unexported fields *)
      else
        match parseField sf with
        | Some fm =>
            let meta := EntityMeta.set_Fields (EntityMeta.Fields meta ++ [fm]) meta in
            let meta :=
              if FieldMeta.IsPK fm
              then EntityMeta.set_PKField (Some fm) meta
              else meta in
            Parse_fields rest (S i) meta
        | None => Parse_fields rest (S i) meta
        end
  end.

(** The cache-miss path of [Parse] for a struct type [t] with the declared
    [fields]: the descriptor that gets cached. *)
Definition Parse_new (t : rtype) (fields : list FieldDecl) : EntityMeta.t :=
  let meta := EntityMeta.mk t (Name t) (toSnakeCase (Name t) +:+ "s")
                None [] [] [] in
  let meta :=
    match FieldByName fields "gorm" with
    | Some gormTag =>
        let tableName := parseGormTag (Get (StructField.Tag gormTag) "gorm") in
        if negb (String.eqb tableName "")
        then EntityMeta.set_TableName tableName meta
        else meta
    | None => meta
    end in
  Parse_fields fields 0 meta.

Definition Parse (entity : any) (st : State) : result * State :=
  match TypeOf entity with
  | None => (Panicked, st)                  (* t.Kind() on the nil Type *)
  | Some t =>
      let t := if Kind_eqb (Kind_of t) Ptr then Elem t else t in
      let key := String_ t in
      match registry st !! key with
      | Some meta => (Returned (Some meta) None, st)
      | None =>
          match fields_of t with
          | None => (Panicked, st)          (* t.FieldByName on a non-struct *)
          | Some fields =>
              let meta := length (heap st) in
              (Returned (Some meta) None,
               mkState (heap st ++ [Parse_new t fields])
                       (<[key := meta]> (registry st)))
          end
      end
  end.

Definition ClearRegistry (st : State) : State :=
  mkState (heap st) ∅.

(** A sequence of [Parse] calls, results dropped: what other callers may do
    between two calls, short of [ClearRegistry]. *)
Definition Parse_all (entities : list any) (st : State) : State :=
  foldl (fun st entity => snd (Parse entity st)) st entities.

(** The descriptor a returned pointer refers to. *)
Definition deref (st : State) (p : loc) : option EntityMeta.t :=
  heap st !! p.

(** [entity_of t ptr]: a value of struct type [t], or a pointer to one. *)
Definition entity_of (t : rtype) (ptr : bool) : any :=
  Some (if ptr then TPtr t else t).

(** The descriptors of the exported fields among [fields], in declaration
    order, the first of [fields] being at index [i]. *)
Fixpoint visible_fields (fields : list FieldDecl) (i : nat) : list FieldMeta.t :=
  match fields with
  | [] => []
  | d :: rest =>
      if String.eqb (StructField.PkgPath (Field d i)) ""
      then match parseField (Field d i) with
           | Some fm => fm :: visible_fields rest (S i)
           | None => visible_fields rest (S i)
           end
      else visible_fields rest (S i)
  end.


End meta.

(** ** goblar/hooks.go and internal/hooks/hooks.go: hook dispatch *)

Module goblar.

(** The six single-method hook interfaces. *)
Inductive Hook :=
| BeforeCreate | AfterCreate
| BeforeUpdate | AfterUpdate
| BeforeDelete | AfterDelete.

End goblar.

Module hooks.
Section Dispatch.

(** [context.Context], the transaction handle [*gorm.DB], and whatever a
    hook method can read and change (its receiver, the database, ...). *)
Context {Ctx Tx World : Type}.

(** A hook method, [(ctx, tx) -> error], run on the world. *)
Definition Method : Type := Ctx -> Tx -> World -> option error * World.

(** An entity instance, by the method set of its dynamic type: for each
    hook interface, the method when the type implements the interface. *)
Record Entity := mkEntity { method : goblar.Hook -> option Method }.

(** Dispatch runs on the world and on the record of hook invocations made
    so far. *)
Definition Run (A : Type) : Type :=
  World * list goblar.Hook -> A * (World * list goblar.Hook).

Definition ret {A} (a : A) : Run A := fun s => (a, s).

(** The call [h.Hook(ctx, tx)]: runs the method and records the
    invocation. *)
Definition invoke (k : goblar.Hook) (h : Method) (ctx : Ctx) (tx : Tx)
    : Run (option error) :=
  fun s =>
    let '(err, w) := h ctx tx (fst s) in
    (err, (w, snd s ++ [k])).

Definition CallBeforeCreate (ctx : Ctx) (entity : Entity) (tx : Tx)
    : Run (option error) :=
  match method entity goblar.BeforeCreate with
  | Some h => invoke goblar.BeforeCreate h ctx tx
  | None => ret None
  end.

Definition CallAfterCreate (ctx : Ctx) (entity : Entity) (tx : Tx)
    : Run (option error) :=
  match method entity goblar.AfterCreate with
  | Some h => invoke goblar.AfterCreate h ctx tx
  | None => ret None
  end.

Definition CallBeforeUpdate (ctx : Ctx) (entity : Entity) (tx : Tx)
    : Run (option error) :=
  match method entity goblar.BeforeUpdate with
  | Some h => invoke goblar.BeforeUpdate h ctx tx
  | None => ret None
  end.

Definition CallAfterUpdate (ctx : Ctx) (entity : Entity) (tx : Tx)
    : Run (option error) :=
  match method entity goblar.AfterUpdate with
  | Some h => invoke goblar.AfterUpdate h ctx tx
  | None => ret None
  end.

Definition CallBeforeDelete (ctx : Ctx) (entity : Entity) (tx : Tx)
    : Run (option error) :=
  match method entity goblar.BeforeDelete with
  | Some h => invoke goblar.BeforeDelete h ctx tx
  | None => ret None
  end.

Definition CallAfterDelete (ctx : Ctx) (entity : Entity) (tx : Tx)
    : Run (option error) :=
  match method entity goblar.AfterDelete with
  | Some h => invoke goblar.AfterDelete h ctx tx
  | None => ret None
  end.

(** The dispatch operation of each lifecycle point. *)
Definition Call (k : goblar.Hook) : Ctx -> Entity -> Tx -> Run (option error) :=
  match k with
  | goblar.BeforeCreate => CallBeforeCreate
  | goblar.AfterCreate => CallAfterCreate
  | goblar.BeforeUpdate => CallBeforeUpdate
  | goblar.AfterUpdate => CallAfterUpdate
  | goblar.BeforeDelete => CallBeforeDelete
  | goblar.AfterDelete => CallAfterDelete
  end.

End Dispatch.
Arguments Entity : clear implicits.
Arguments Method : clear implicits.

(** *** The entities of the hook tests *)

Record MockEntityWithHooks := mkMock {
  BeforeCreateCalled : bool;
  AfterCreateCalled : bool;
  BeforeUpdateCalled : bool;
  AfterUpdateCalled : bool;
  BeforeDeleteCalled : bool;
  AfterDeleteCalled : bool;
  ShouldFail : bool
}.

Definition Mock_zero : MockEntityWithHooks :=
  mkMock false false false false false false false.

Definition Mock_called (k : goblar.Hook) (m : MockEntityWithHooks) : bool :=
  match k with
  | goblar.BeforeCreate => BeforeCreateCalled m
  | goblar.AfterCreate => AfterCreateCalled m
  | goblar.BeforeUpdate => BeforeUpdateCalled m
  | goblar.AfterUpdate => AfterUpdateCalled m
  | goblar.BeforeDelete => BeforeDeleteCalled m
  | goblar.AfterDelete => AfterDeleteCalled m
  end.

Definition Mock_set_called (k : goblar.Hook) (m : MockEntityWithHooks)
    : MockEntityWithHooks :=
  mkMock
    (match k with goblar.BeforeCreate => true | _ => BeforeCreateCalled m end)
    (match k with goblar.AfterCreate => true | _ => AfterCreateCalled m end)
    (match k with goblar.BeforeUpdate => true | _ => BeforeUpdateCalled m end)
    (match k with goblar.AfterUpdate => true | _ => AfterUpdateCalled m end)
    (match k with goblar.BeforeDelete => true | _ => BeforeDeleteCalled m end)
    (match k with goblar.AfterDelete => true | _ => AfterDeleteCalled m end)
    (ShouldFail m).

Definition Mock_message (k : goblar.Hook) : error :=
  match k with
  | goblar.BeforeCreate => "before create failed"
  | goblar.AfterCreate => "after create failed"
  | goblar.BeforeUpdate => "before update failed"
  | goblar.AfterUpdate => "after update failed"
  | goblar.BeforeDelete => "before delete failed"
  | goblar.AfterDelete => "after delete failed"
  end.

(** The six methods of [*MockEntityWithHooks]: set the flag, fail when
    [ShouldFail]. The world is the mock the pointer refers to. *)
Definition Mock_method (k : goblar.Hook) : Method unit unit MockEntityWithHooks :=
  fun _ _ m =>
    let m := Mock_set_called k m in
    (if ShouldFail m then Some (Mock_message k) else None, m).

Definition MockEntity : Entity unit unit MockEntityWithHooks :=
  mkEntity (fun k => Some (Mock_method k)).

(** [SimpleEntity] implements no hook. *)
Definition SimpleEntity : Entity unit unit MockEntityWithHooks :=
  mkEntity (fun _ => None).

End hooks.

(** ** internal/http: route registration *)

Module http.
Import strings.

Inductive Verb := POST | GET | PUT | DELETE.

(** The handler constructors of [Handlers], applied to a descriptor. *)
Inductive HandlerKind :=
| CreateHandler | ListHandler | GetHandler | UpdateHandler | DeleteHandler.

Record Route := mkRoute {
  verb : Verb;
  pattern : string;
  handler : HandlerKind * EntityMeta.t
}.

(** The router, by the routes registered on its mux, in order. *)
Definition Router := list Route.

(** [byte(r + 'a' - 'A' + 1)]: the rune plus 33, cut to eight bits. The loop
    ranges over the runes of the name; on an ASCII name these are its
    bytes. *)
Definition toURLPath_byte (r : rune) : ascii :=
  ascii_of_N ((N_of_ascii r + 97 - 65 + 1) mod 256).

(** The loop [for i, r := range s] of [toURLPath]. *)
Fixpoint toURLPath_loop (i : nat) (rest : list rune) (result : list ascii)
    : list ascii :=
  match rest with
  | [] => result
  | r :: rest' =>
      let result :=
        if (0 <? i) && isUpper r then result ++ ["-"%char] else result in
      toURLPath_loop (S i) rest' (result ++ [toURLPath_byte r])
  end.

Definition toURLPath (s : string) : string :=
  string_of_list_ascii (toURLPath_loop 0 (list_ascii_of_string s) []).

(** [RegisterEntityRoutes]: the five registrations on the mux, for a resource
    name whose patterns the mux reads as a literal segment followed by the
    parameter [{id}] (chi panics on a pattern it cannot read, such as one
    with a brace that is not closed). *)
Definition RegisterEntityRoutes (router : Router) (meta : EntityMeta.t) : Router :=
  let resourceName := toURLPath (EntityMeta.Name meta) in
  let router := router ++ [mkRoute POST ("/" +:+ resourceName) (CreateHandler, meta)] in
  let router := router ++ [mkRoute GET ("/" +:+ resourceName) (ListHandler, meta)] in
  let router :=
    router ++ [mkRoute GET ("/" +:+ resourceName +:+ "/{id}") (GetHandler, meta)] in
  let router :=
    router ++ [mkRoute PUT ("/" +:+ resourceName +:+ "/{id}") (UpdateHandler, meta)] in
  router ++ [mkRoute DELETE ("/" +:+ resourceName +:+ "/{id}") (DeleteHandler, meta)].

End http.

(** ** internal/repo: the generic repository *)

Module gorm.

Definition ErrInvalidDB : error := "invalid db".
Definition ErrRecordNotFound : error := "record not found".

End gorm.

Module repo.

(** The storage operations of the driver the repository calls. *)
Inductive Op := OpCreate | OpFirst | OpFind | OpSave | OpDelete | OpCount.

Section Repository.

(** The entity type [T], primary-key values, [context.Context], the driver
    handle [*gorm.DB] and the state of the storage behind it. *)
Context {T Id Ctx Handle Store : Type}.

(** The injected driver: what each gorm call chain the repository uses
    does to the entity it is given and to the storage, and its [Error]. *)
Record Driver := mkDriver {
  drvCreate : Handle -> Ctx -> T -> Store -> (T * option error) * Store;
  drvFirst : Handle -> Ctx -> Id -> Store -> (T * option error) * Store;
  drvFind : Handle -> Ctx -> Store -> (list T * option error) * Store;
  drvSave : Handle -> Ctx -> T -> Store -> (T * option error) * Store;
  drvDelete : Handle -> Ctx -> Id -> Store -> option error * Store;
  drvCount : Handle -> Ctx -> Store -> (Z * option error) * Store
}.

Variable driver : Driver.

(** [Repository[T]]; [db = None] is the nil handle. *)
Record Repository := mkRepository {
  db : option Handle;
  meta : EntityMeta.t
}.

Definition New (db : option Handle) (meta : EntityMeta.t) : Repository :=
  mkRepository db meta.

(** An operation runs on the storage and on the record of driver
    operations invoked so far. *)
Definition Run (A : Type) : Type := Store * list Op -> A * (Store * list Op).

Definition ret {A} (a : A) : Run A := fun s => (a, s).

(** A driver call: runs it on the storage and records the operation. *)
Definition storage {A} (op : Op) (call : Store -> A * Store) : Run A :=
  fun s => let '(a, store) := call (fst s) in (a, (store, snd s ++ [op])).

(** [Create]: the entity after the call (the driver writes the generated
    key into it) and the error. *)
Definition Create (r : Repository) (ctx : Ctx) (entity : T) : Run (T * option error) :=
  match db r with
  | None => ret (entity, Some gorm.ErrInvalidDB)
  | Some h => storage OpCreate (drvCreate driver h ctx entity)
  end.

Definition GetByID (r : Repository) (ctx : Ctx) (id : Id)
    : Run (option T * option error) :=
  match db r with
  | None => ret (None, Some gorm.ErrInvalidDB)
  | Some h =>
      fun s =>
        let '((entity, err), s) := storage OpFirst (drvFirst driver h ctx id) s in
        match err with
        | Some e => ((None, Some e), s)
        | None => ((Some entity, None), s)
        end
  end.

Definition GetAll (r : Repository) (ctx : Ctx) : Run (list T * option error) :=
  match db r with
  | None => ret ([], Some gorm.ErrInvalidDB)
  | Some h =>
      fun s =>
        let '((entities, err), s) := storage OpFind (drvFind driver h ctx) s in
        match err with
        | Some e => (([], Some e), s)
        | None => ((entities, None), s)
        end
  end.

Definition Update (r : Repository) (ctx : Ctx) (entity : T) : Run (T * option error) :=
  match db r with
  | None => ret (entity, Some gorm.ErrInvalidDB)
  | Some h => storage OpSave (drvSave driver h ctx entity)
  end.

Definition Delete (r : Repository) (ctx : Ctx) (id : Id) : Run (option error) :=
  match db r with
  | None => ret (Some gorm.ErrInvalidDB)
  | Some h => storage OpDelete (drvDelete driver h ctx id)
  end.

Definition Count (r : Repository) (ctx : Ctx) : Run (Z * option error) :=
  match db r with
  | None => ret (0%Z, Some gorm.ErrInvalidDB)
  | Some h => storage OpCount (drvCount driver h ctx)
  end.

End Repository.
End repo.

(** ** Entity declarations used as concrete inputs

    [User] and [Product] are the entities of the example program,
    [ProductToPrice] is the join entity of its tests; the others exercise
    single annotations. *)

Module entities.
Import reflect.

Definition uint_t : rtype := TOther "uint" "uint".
Definition int_t : rtype := TOther "int" "int".
Definition string_t : rtype := TOther "string" "string".
Definition float64_t : rtype := TOther "float64" "float64".
Definition empty_struct_t : rtype := TStruct "struct {}" "" [].

Definition exported (name : string) (typ : rtype) (tag : StructTag) : FieldDecl :=
  mkFieldDecl name "" typ tag.

Definition User_fields : list FieldDecl :=
  [ exported "ID" uint_t [("gorm", "primaryKey"); ("go-blar", "pk")];
    exported "Name" string_t [];
    exported "Email" string_t [] ].
Definition User : rtype := TStruct "main.User" "User" User_fields.

Definition Product_fields : list FieldDecl :=
  [ exported "ID" uint_t [("gorm", "primaryKey"); ("go-blar", "pk")];
    exported "Name" string_t [];
    exported "Price" float64_t [];
    exported "Quantity" int_t [("go-blar", "readonly")];
    exported "Secret" string_t [("go-blar", "hidden")] ].
Definition Product : rtype := TStruct "main.Product" "Product" Product_fields.

Definition ProductToPrice_fields : list FieldDecl :=
  [ exported "ProductID" uint_t [("gorm", "primaryKey")];
    exported "TagID" uint_t [("gorm", "primaryKey")] ].
Definition ProductToPrice : rtype :=
  TStruct "test.ProductToPrice" "ProductToPrice" ProductToPrice_fields.

(** A [table:] fragment on an ordinary field. *)
Definition Person_fields : list FieldDecl :=
  [ exported "ID" uint_t [("gorm", "primaryKey;table:people")];
    exported "Name" string_t [] ].
Definition Person : rtype := TStruct "main.Person" "Person" Person_fields.

(** A [table:] fragment on a field named [gorm]. *)
Definition Member_fields : list FieldDecl :=
  [ mkFieldDecl "gorm" "main" empty_struct_t [("gorm", "table:people")];
    exported "ID" uint_t [("go-blar", "pk")] ].
Definition Member : rtype := TStruct "main.Member" "Member" Member_fields.

(** Aggregate annotations, as in the README. *)
Definition Order_fields : list FieldDecl :=
  [ exported "ID" uint_t [("go-blar", "pk")];
    exported "ItemCount" int_t [("go-blar", "count:Items")];
    exported "ItemSum" float64_t [("go-blar", "sum:Items.Price")];
    exported "Items" (TOther "[]main.Item" "") [("go-blar", "list")] ].
Definition Order : rtype := TStruct "main.Order" "Order" Order_fields.

(** [primaryKey] inside a column name. *)
Definition Legacy_Ref : StructField.t :=
  StructField.mk "Ref" "" uint_t [("gorm", "column:primaryKeyBackup;index")] [0].

End entities.

(** ** internal/http/router.go: the router's middlewares *)

Module router.
Section Router.

(** A middleware, [func(http.Handler) http.Handler]. *)
Context {Middleware : Type}.

(** The router: of the embedded mux, the middlewares handed to [Use], in
    call order, and the routes; and the field [middlewares]. *)
Record Router := mkRouter {
  used : list Middleware;
  routes : http.Router;
  middlewares : list Middleware
}.

Definition New : Router := mkRouter [] [] [].

Definition AddMiddleware (r : Router) (m : Middleware) : Router :=
  mkRouter (used r) (routes r) (middlewares r ++ [m]).

(** The call [r.Use(m)] on the embedded mux. chi takes middlewares only
    while no route is registered; afterwards [Use] panics ("all middlewares
    must be defined before routes on a mux"), which is [None]. *)
Definition Use (r : Router) (m : Middleware) : option Router :=
  match routes r with
  | [] => Some (mkRouter (used r ++ [m]) (routes r) (middlewares r))
  | _ :: _ => None
  end.

(** The loop [for i := len(r.middlewares) - 1; i >= 0; i--], with [n]
    turns left, that is at index [n - 1]. *)
Fixpoint ApplyMiddleware_loop (n : nat) (r : Router) : option Router :=
  match n with
  | 0 => Some r
  | S i =>
      match middlewares r !! i with
      | Some m =>
          match Use r m with
          | Some r => ApplyMiddleware_loop i r
          | None => None
          end
      | None => Some r                    (* index out of range: not reached *)
      end
  end.

Definition ApplyMiddleware (r : Router) : option Router :=
  ApplyMiddleware_loop (length (middlewares r)) r.

End Router.
Arguments Router : clear implicits.
End router.

(** ** Notions used to state properties of the routes *)

Module route_notions.
Import strings http.

(** What [toURLPath] writes for the characters [rest], [later] telling
    whether they come after the first character of the name. *)
Fixpoint written (later : bool) (rest : list rune) : list ascii :=
  match rest with
  | [] => []
  | r :: rest' =>
      (if later && isUpper r then ["-"%char] else [])
      ++ toURLPath_byte r :: written true rest'
  end.

(** Undoes [toURLPath_byte]. *)
Definition toURLPath_unbyte (b : ascii) : rune :=
  ascii_of_N ((N_of_ascii b + 223) mod 256).

End route_notions.

(** ** internal/http/handlers.go: the CRUD handlers

    A handler is modelled by what it answers and by what it does to the
    storage, with the hooks it invokes and the storage operations it makes
    recorded in order. The request body, the JSON decoder, [strconv.ParseInt],
    the zero value and the method set of the entity type, and the gorm call
    chains are the environment. The driver handle [h.db] is the non-nil one
    [Register] asks for. *)

Module handlers.

(** An error of the driver: the value [gorm.ErrRecordNotFound] itself, or
    another error value, by its message. The handlers compare with [==], so
    another error is not [gorm.ErrRecordNotFound], whatever its message. *)
Inductive DriverError :=
| ErrRecordNotFound
| OtherError (msg : string).

(** [err == gorm.ErrRecordNotFound]. *)
Definition is_ErrRecordNotFound (err : DriverError) : bool :=
  match err with
  | ErrRecordNotFound => true
  | OtherError _ => false
  end.

(** [err.Error()]. *)
Definition message (err : DriverError) : string :=
  match err with
  | ErrRecordNotFound => gorm.ErrRecordNotFound
  | OtherError msg => msg
  end.

Inductive DbOp :=
| DbCreate
| DbFind
| DbFirst (id : Z)
| DbUpdates (id : Z)
| DbDelete (id : Z).

Inductive Event :=
| HookCalled (k : goblar.Hook)
| Storage (op : DbOp).

Definition StatusOK : nat := 200.
Definition StatusCreated : nat := 201.
Definition StatusNoContent : nat := 204.
Definition StatusBadRequest : nat := 400.
Definition StatusNotFound : nat := 404.
Definition StatusInternalServerError : nat := 500.

Section Handlers.

(** [context.Context], [*gorm.DB], the request body, an entity instance and
    the storage. *)
Context {Ctx Handle Body E Store : Type}.

(** The request, as far as the handlers read it: [r.Context()],
    [chi.URLParam(r, "id")] and [r.Body]. *)
Record Request := mkRequest {
  Context_ : Ctx;
  URLParam_id : string;
  Body_ : Body
}.

(** What is written to the response: the message of [http.Error], the JSON
    encoding of an entity or of a slice of entities, or nothing. *)
Inductive Payload :=
| Text (msg : string)
| JSON (entity : E)
| JSONList (entities : list E)
| NoBody.

Record Response := mkResponse { status : nat; payload : Payload }.

(** [http.Error(w, msg, code)]. *)
Definition Error (msg : string) (code : nat) : Response :=
  mkResponse code (Text msg).

Record Env := mkEnv {
  (** [strconv.ParseInt(s, 10, 64)]; [None] when it returns an error *)
  ParseInt : string -> option Z;
  (** [json.NewDecoder(body).Decode(entity)] *)
  Decode : Body -> E -> option error * E;
  (** the instance [reflect.New(t)] points to *)
  zero_value : reflect.rtype -> E;
  (** the method set of the type of [reflect.New(t).Interface()] *)
  method_set : reflect.rtype -> hooks.Entity Ctx Handle (E * Store);
  (** [db.WithContext(ctx).Create(entity).Error] *)
  dbCreate : Handle -> Ctx -> E * Store -> option DriverError * (E * Store);
  (** [db.WithContext(ctx).Find(entities).Error] *)
  dbFind : Handle -> Ctx -> Store -> option DriverError * (list E * Store);
  (** [db.WithContext(ctx).First(entity, id).Error] *)
  dbFirst : Handle -> Ctx -> Z -> E * Store -> option DriverError * (E * Store);
  (** [db.WithContext(ctx).Model(entity).Where("id = ?", id).Updates(entity).Error] *)
  dbUpdates : Handle -> Ctx -> Z -> E * Store -> option DriverError * (E * Store);
  (** [db.WithContext(ctx).Delete(entity, id).Error] *)
  dbDelete : Handle -> Ctx -> Z -> E * Store -> option DriverError * (E * Store)
}.

Variable env : Env.

Record Handlers := mkHandlers { db : Handle }.

Definition NewHandlers (db : Handle) : Handlers := mkHandlers db.

Definition makeEntityInstance (entityMeta : EntityMeta.t) : E :=
  zero_value env (EntityMeta.Type_ entityMeta).

(** The storage and the record of hook invocations and storage operations. *)
Definition St : Type := Store * list Event.

(** A hook dispatch on the entity, its invocations added to the record. *)
Definition hook (call : @hooks.Run (E * Store) (option error)) (entity : E) (s : St)
    : option error * (E * St) :=
  let '(err, (w, ks)) := call ((entity, fst s), []) in
  (err, (fst w, (snd w, snd s ++ map HookCalled ks))).

(** A storage operation on the entity, added to the record. *)
Definition storage (op : DbOp)
    (call : E * Store -> option DriverError * (E * Store)) (entity : E) (s : St)
    : option DriverError * (E * St) :=
  let '(err, w) := call (entity, fst s) in
  (err, (fst w, (snd w, snd s ++ [Storage op]))).

Definition CreateHandler (h : Handlers) (entityMeta : EntityMeta.t)
    (r : Request) (s : St) : Response * St :=
  let ctx := Context_ r in
  let entity := makeEntityInstance entityMeta in
  let '(err, entity) := Decode env (Body_ r) entity in
  match err with
  | Some _ => (Error "Invalid request body" StatusBadRequest, s)
  | None =>
  let '(err, (entity, s)) :=
    hook (hooks.CallBeforeCreate ctx
            (method_set env (EntityMeta.Type_ entityMeta)) (db h)) entity s in
  match err with
  | Some e => (Error e StatusInternalServerError, s)
  | None =>
  let '(err, (entity, s)) := storage DbCreate (dbCreate env (db h) ctx) entity s in
  match err with
  | Some e => (Error (message e) StatusInternalServerError, s)
  | None =>
  let '(err, (entity, s)) :=
    hook (hooks.CallAfterCreate ctx
            (method_set env (EntityMeta.Type_ entityMeta)) (db h)) entity s in
  match err with
  | Some e => (Error e StatusInternalServerError, s)
  | None => (mkResponse StatusCreated (JSON entity), s)
  end end end end.

Definition ListHandler (h : Handlers) (entityMeta : EntityMeta.t)
    (r : Request) (s : St) : Response * St :=
  let ctx := Context_ r in
  let '(err, (entities, store)) := dbFind env (db h) ctx (fst s) in
  let s := (store, snd s ++ [Storage DbFind]) in
  match err with
  | Some e => (Error (message e) StatusInternalServerError, s)
  | None => (mkResponse StatusOK (JSONList entities), s)
  end.

Definition GetHandler (h : Handlers) (entityMeta : EntityMeta.t)
    (r : Request) (s : St) : Response * St :=
  let ctx := Context_ r in
  let idStr := URLParam_id r in
  match ParseInt env idStr with
  | None => (Error "Invalid ID" StatusBadRequest, s)
  | Some id =>
  let entity := makeEntityInstance entityMeta in
  let '(err, (entity, s)) := storage (DbFirst id) (dbFirst env (db h) ctx id) entity s in
  match err with
  | Some e =>
      if is_ErrRecordNotFound e
      then (Error "Not found" StatusNotFound, s)
      else (Error (message e) StatusInternalServerError, s)
  | None => (mkResponse StatusOK (JSON entity), s)
  end end.

Definition UpdateHandler (h : Handlers) (entityMeta : EntityMeta.t)
    (r : Request) (s : St) : Response * St :=
  let ctx := Context_ r in
  let idStr := URLParam_id r in
  match ParseInt env idStr with
  | None => (Error "Invalid ID" StatusBadRequest, s)
  | Some id =>
  let entity := makeEntityInstance entityMeta in
  let '(err, entity) := Decode env (Body_ r) entity in
  match err with
  | Some _ => (Error "Invalid request body" StatusBadRequest, s)
  | None =>
  let '(err, (entity, s)) :=
    hook (hooks.CallBeforeUpdate ctx
            (method_set env (EntityMeta.Type_ entityMeta)) (db h)) entity s in
  match err with
  | Some e => (Error e StatusInternalServerError, s)
  | None =>
  let '(err, (entity, s)) :=
    storage (DbUpdates id) (dbUpdates env (db h) ctx id) entity s in
  match err with
  | Some e => (Error (message e) StatusInternalServerError, s)
  | None =>
  let '(err, (entity, s)) :=
    hook (hooks.CallAfterUpdate ctx
            (method_set env (EntityMeta.Type_ entityMeta)) (db h)) entity s in
  match err with
  | Some e => (Error e StatusInternalServerError, s)
  | None => (mkResponse StatusOK (JSON entity), s)
  end end end end end.

Definition DeleteHandler (h : Handlers) (entityMeta : EntityMeta.t)
    (r : Request) (s : St) : Response * St :=
  let ctx := Context_ r in
  let idStr := URLParam_id r in
  match ParseInt env idStr with
  | None => (Error "Invalid ID" StatusBadRequest, s)
  | Some id =>
  let entity := makeEntityInstance entityMeta in
  let '(err, (entity, s)) := storage (DbFirst id) (dbFirst env (db h) ctx id) entity s in
  match err with
  | Some e =>
      if is_ErrRecordNotFound e
      then (Error "Not found" StatusNotFound, s)
      else (Error (message e) StatusInternalServerError, s)
  | None =>
  let '(err, (entity, s)) :=
    hook (hooks.CallBeforeDelete ctx
            (method_set env (EntityMeta.Type_ entityMeta)) (db h)) entity s in
  match err with
  | Some e => (Error e StatusInternalServerError, s)
  | None =>
  let '(err, (entity, s)) :=
    storage (DbDelete id) (dbDelete env (db h) ctx id) entity s in
  match err with
  | Some e => (Error (message e) StatusInternalServerError, s)
  | None =>
  let '(err, (entity, s)) :=
    hook (hooks.CallAfterDelete ctx
            (method_set env (EntityMeta.Type_ entityMeta)) (db h)) entity s in
  match err with
  | Some e => (Error e StatusInternalServerError, s)
  | None => (mkResponse StatusNoContent NoBody, s)
  end end end end end.

(** The record a dispatch of hook [k] leaves for the entity type of
    [entityMeta]: one invocation when the type implements the hook. *)
Definition hook_events (entityMeta : EntityMeta.t) (k : goblar.Hook) : list Event :=
  match hooks.method (method_set env (EntityMeta.Type_ entityMeta)) k with
  | Some _ => [HookCalled k]
  | None => []
  end.

End Handlers.
Arguments Request : clear implicits.
Arguments Response : clear implicits.
Arguments Payload : clear implicits.
Arguments Env : clear implicits.
Arguments Handlers : clear implicits.
End handlers.

(** ** An example environment for the handlers

    Entities are the mock of the hook tests, the storage is the list of
    stored rows, a row's key its position; a body is the entity its JSON
    denotes, or nothing when it is malformed. *)

Module handler_example.
Import hooks handlers.

Definition Mock_method_on_world (k : goblar.Hook)
    : Method unit unit (MockEntityWithHooks * list MockEntityWithHooks) :=
  fun ctx tx w =>
    let '(err, m) := Mock_method k ctx tx (fst w) in (err, (m, snd w)).

Fixpoint digits_value (acc : Z) (s : string) : option Z :=
  match s with
  | EmptyString => Some acc
  | String c s' =>
      let n := N_of_ascii c in
      if (48 <=? n)%N && (n <=? 57)%N
      then digits_value (acc * 10 + Z.of_N (n - 48)) s'
      else None
  end.

(** Reads a decimal number with an optional sign, within 64 bits. *)
Definition read_int64 (s : string) : option Z :=
  let '(negative, digits) :=
    match s with
    | String "-" s' => (true, s')
    | String "+" s' => (false, s')
    | _ => (false, s)
    end in
  match digits with
  | EmptyString => None
  | _ =>
      match digits_value 0 digits with
      | Some n =>
          let v := if negative then (- n)%Z else n in
          if ((- 2 ^ 63 <=? v) && (v <? 2 ^ 63))%Z then Some v else None
      | None => None
      end
  end.

Definition example_env
    : Env unit unit (option MockEntityWithHooks) MockEntityWithHooks
          (list MockEntityWithHooks) :=
  mkEnv
    read_int64
    (fun body entity =>
       match body with
       | Some m => (None, m)
       | None => (Some "unexpected end of JSON input", entity)
       end)
    (fun _ => Mock_zero)
    (fun _ => mkEntity (fun k => Some (Mock_method_on_world k)))
    (fun _ _ w => (None, (fst w, snd w ++ [fst w])))
    (fun _ _ rows => (None, (rows, rows)))
    (fun _ _ id w =>
       match snd w !! Z.to_nat id with
       | Some row => (None, (row, snd w))
       | None => (Some ErrRecordNotFound, w)
       end)
    (fun _ _ id w => (None, (fst w, <[Z.to_nat id := fst w]> (snd w))))
    (fun _ _ id w => (None, (fst w, delete (Z.to_nat id) (snd w)))).

Definition failing_mock : MockEntityWithHooks :=
  mkMock false false false false false false true.

Definition example_handlers : Handlers unit := NewHandlers tt.

(** The example with a storage that takes no writes. *)
Definition readonly_env
    : Env unit unit (option MockEntityWithHooks) MockEntityWithHooks
          (list MockEntityWithHooks) :=
  let refused := OtherError "attempt to write a readonly database" in
  mkEnv
    (ParseInt example_env) (Decode example_env) (zero_value example_env)
    (method_set example_env)
    (fun _ _ w => (Some refused, w))
    (dbFind example_env)
    (dbFirst example_env)
    (fun _ _ _ w => (Some refused, w))
    (fun _ _ _ w => (Some refused, w)).

(** The example with a closed connection: every read fails. *)
Definition closed_env
    : Env unit unit (option MockEntityWithHooks) MockEntityWithHooks
          (list MockEntityWithHooks) :=
  let closed := OtherError "sql: database is closed" in
  mkEnv
    (ParseInt example_env) (Decode example_env) (zero_value example_env)
    (method_set example_env)
    (fun _ _ w => (Some closed, w))
    (fun _ _ rows => (Some closed, ([], rows)))
    (fun _ _ _ w => (Some closed, w))
    (fun _ _ _ w => (Some closed, w))
    (fun _ _ _ w => (Some closed, w)).

(** The example with an entity type that implements the three after-hooks
    only. *)
Definition after_hooks_env
    : Env unit unit (option MockEntityWithHooks) MockEntityWithHooks
          (list MockEntityWithHooks) :=
  mkEnv
    (ParseInt example_env) (Decode example_env) (zero_value example_env)
    (fun _ => mkEntity (fun k =>
       match k with
       | goblar.AfterCreate | goblar.AfterUpdate | goblar.AfterDelete =>
           Some (Mock_method_on_world k)
       | _ => None
       end))
    (dbCreate example_env) (dbFind example_env) (dbFirst example_env)
    (dbUpdates example_env) (dbDelete example_env).

End handler_example.

(** ** goblar: options, App, Register, Start and Run *)

Module app.
Import reflect.

(** What [Register], [Start] and [Run] come to: the returned error, or a
    panic. *)
Inductive outcome :=
| Returned (err : option error)
| Panicked.

(** [%T] of a value. *)
Definition type_name (model : any) : string :=
  match model with
  | Some t => String_ t
  | None => "<nil>"
  end.

Section App.

(** [*gorm.DB], a middleware, [http.Handler] and the storage behind the
    driver. *)
Context {Handle Middleware Handler Store : Type}.

Record config := mkConfig {
  cfg_db : option Handle;
  addr : string;
  middleware : list Middleware
}.

Definition Option : Type := config -> config.

Definition WithDB (db : option Handle) : Option :=
  fun c => mkConfig db (addr c) (middleware c).

Definition WithAddress (a : string) : Option :=
  fun c => mkConfig (cfg_db c) a (middleware c).

Definition WithMiddleware (m : Middleware) : Option :=
  fun c => mkConfig (cfg_db c) (addr c) (middleware c ++ [m]).

Definition newConfig : config := mkConfig None ":8080" [].

Definition apply (c : config) (opts : list Option) : config :=
  foldl (fun c opt => opt c) c opts.

Record App := mkApp {
  db : option Handle;
  router : option Handler;
  cfg : config;
  registry : gmap string meta.loc
}.

Definition New (opts : list Option) : App :=
  let cfg := apply newConfig opts in
  mkApp (cfg_db cfg) None cfg ∅.

(** What the program runs on: the parser's heap and registry, the storage,
    and the addresses a server was started on. *)
Record World := mkWorld {
  parser : meta.State;
  store : Store;
  served : list string
}.

(** [db.AutoMigrate(model)] and [server.ListenAndServe()], which returns
    when the server stops. *)
Variable AutoMigrate : Handle -> any -> Store -> option error * Store.
Variable ListenAndServe : string -> option Handler -> error.

(** The loop [for _, model := range models] of [Register], the driver
    handle being [h]. *)
Fixpoint Register_models (h : Handle) (models : list any) (a : App) (w : World)
    : outcome * (App * World) :=
  match models with
  | [] => (Returned None, (a, w))
  | model :: rest =>
      match meta.Parse model (parser w) with
      | (meta.Panicked, st) => (Panicked, (a, mkWorld st (store w) (served w)))
      | (meta.Returned entityMeta (Some e), st) =>
          (Returned (Some ("failed to parse model " +:+ type_name model
                           +:+ ": " +:+ e)),
           (a, mkWorld st (store w) (served w)))
      | (meta.Returned entityMeta None, st) =>
          let '(err, store') := AutoMigrate h model (store w) in
          match err with
          | Some e =>
              (Returned (Some ("failed to migrate model " +:+ type_name model
                               +:+ ": " +:+ e)),
               (a, mkWorld st store' (served w)))
          | None =>
              match entityMeta ≫= meta.deref st with
              | Some d =>
                  match entityMeta with
                  | Some p =>
                      Register_models h rest
                        (mkApp (db a) (router a) (cfg a)
                               (<[EntityMeta.Name d := p]> (registry a)))
                        (mkWorld st store' (served w))
                  | None => (Panicked, (a, mkWorld st store' (served w)))
                  end
              | None =>                       (* entityMeta.Name on nil *)
                  (Panicked, (a, mkWorld st store' (served w)))
              end
          end
      end
  end.

Definition Register (a : App) (models : list any) (w : World)
    : outcome * (App * World) :=
  match db a with
  | None =>
      (Returned (Some "database not configured: use WithDB option"), (a, w))
  | Some h => Register_models h models a w
  end.

Definition Start (a : App) (w : World) : outcome * (App * World) :=
  let a :=
    if String.eqb (addr (cfg a)) ""
    then mkApp (db a) (router a)
           (mkConfig (cfg_db (cfg a)) ":8080" (middleware (cfg a))) (registry a)
    else a in
  (Returned (Some (ListenAndServe (addr (cfg a)) (router a))),
   (a, mkWorld (parser w) (store w) (served w ++ [addr (cfg a)]))).

Definition Run (models : list any) (w : World) : outcome * World :=
  let app := New [] in
  match Register app models w with
  | (Returned (Some err), (_, w)) => (Returned (Some err), w)
  | (Returned None, (app, w)) =>
      let '(res, (_, w)) := Start app w in (res, w)
  | (Panicked, (_, w)) => (Panicked, w)
  end.

(** The settings the three option constructors stand for. *)
Inductive Setting :=
| SetDB (db : option Handle)
| SetAddress (a : string)
| AddMiddleware (m : Middleware).

Definition option_of (s : Setting) : Option :=
  match s with
  | SetDB db => WithDB db
  | SetAddress a => WithAddress a
  | AddMiddleware m => WithMiddleware m
  end.

Definition db_settings (l : list Setting) : list (option Handle) :=
  omap (fun s => match s with SetDB db => Some db | _ => None end) l.
Definition address_settings (l : list Setting) : list string :=
  omap (fun s => match s with SetAddress a => Some a | _ => None end) l.
Definition middleware_settings (l : list Setting) : list Middleware :=
  omap (fun s => match s with AddMiddleware m => Some m | _ => None end) l.

End App.
Arguments config : clear implicits.
Arguments App : clear implicits.
Arguments World : clear implicits.
Arguments Setting : clear implicits.
End app.

(** ** An example driver for the App *)

Module app_example.
Import reflect.

(** A migration that records the migrated type and fails for [main.Order]. *)
Definition example_AutoMigrate (h : unit) (model : any) (store : list string)
    : option error * list string :=
  let name := app.type_name model in
  if String.eqb name "*main.Order"
  then (Some "no such table", store)
  else (None, store ++ [name]).

Definition example_ListenAndServe (addr : string) (handler : option unit) : error :=
  "http: Server closed".

Definition example_world : app.World (list string) :=
  app.mkWorld meta.State_init [] [].

(** Options whose last WithDB takes the handle away again. *)
Definition example_settings : list (app.Setting unit unit) :=
  [app.SetDB (Some tt); app.SetAddress ":3000"; app.SetDB None].

Definition example_app : app.App unit unit unit :=
  app.New [app.WithDB (Some tt); app.WithAddress ":9000"].

End app_example.

(** ** Entity declarations of the parser's tests

    [TestParseBasicStruct] and [TestParseWithPointerType] each declare a
    local type [Product]; both print as [meta.Product]. *)

Module test_entities.
Import reflect entities.

Definition BasicProduct_fields : list FieldDecl :=
  [ exported "ID" uint_t [("gorm", "primaryKey"); ("go-blar", "pk")];
    exported "Name" string_t [];
    exported "Price" float64_t [] ].
Definition BasicProduct : rtype :=
  TStruct "meta.Product" "Product" BasicProduct_fields.

Definition PlainProduct_fields : list FieldDecl :=
  [ exported "ID" uint_t [];
    exported "Name" string_t [] ].
Definition PlainProduct : rtype :=
  TStruct "meta.Product" "Product" PlainProduct_fields.

(** An entity with an unexported field between exported ones. *)
Definition Account_fields : list FieldDecl :=
  [ exported "ID" uint_t [("go-blar", "pk")];
    mkFieldDecl "secret" "main" string_t [("go-blar", "hidden")];
    exported "Owner" uint_t [("go-blar", " fk:users ; readonly ")] ].
Definition Account : rtype := TStruct "main.Account" "Account" Account_fields.

End test_entities.

(** ** Notions used to state properties of the parser *)

Module parser_notions.
Import strings naming reflect meta.

(** The characters of [s] other than underscores. *)
Definition without_underscores (s : string) : list rune :=
  List.filter (fun c => negb (Ascii.eqb c underscore)) (list_ascii_of_string s).

(** The fragments of a tag value as the parser compares them. *)
Definition fragments (tag : string) : list string :=
  map TrimSpace (Split tag semicolon).

(** Whether [frag] is one of the fragments of [tag]. *)
Definition has_fragment (frag tag : string) : bool :=
  existsb (String.eqb frag) (fragments tag).

(** Whether [part] is a fragment the go-blar tag grammar knows: one of the
    five flags, or one of the four prefixed forms. *)
Definition recognised (part : string) : bool :=
  String.eqb part "pk" || String.eqb part "nested" || String.eqb part "list"
  || String.eqb part "hidden" || String.eqb part "readonly"
  || HasPrefix part "fk:" || HasPrefix part "m2m:"
  || HasPrefix part "count:" || HasPrefix part "sum:".

(** The descriptor of the field [sf] with no metadata set. *)
Definition plain_field (sf : StructField.t) : FieldMeta.t :=
  FieldMeta.mk (StructField.Name sf) (StructField.Type_ sf)
    (StructField.Index sf) false None false None false false false.

(** Whether the field declaration [d] marks the field as primary key. *)
Definition marks_pk (tag : StructTag) : bool :=
  has_fragment "pk" (Get tag "go-blar") || Contains (Get tag "gorm") "primaryKey".

Definition decl_name (d : FieldDecl) : string :=
  match d with mkFieldDecl name _ _ _ => name end.
Definition decl_pkgPath (d : FieldDecl) : string :=
  match d with mkFieldDecl _ pkgPath _ _ => pkgPath end.
Definition decl_type (d : FieldDecl) : rtype :=
  match d with mkFieldDecl _ _ typ _ => typ end.
Definition decl_tag (d : FieldDecl) : StructTag :=
  match d with mkFieldDecl _ _ _ tag => tag end.

(** What a program can do to the registry. *)
Inductive RegistryCall :=
| CallParse (entity : any)
| CallClearRegistry.

Definition run_call (st : State) (c : RegistryCall) : State :=
  match c with
  | CallParse entity => snd (Parse entity st)
  | CallClearRegistry => ClearRegistry st
  end.

Definition run_calls (calls : list RegistryCall) (st : State) : State :=
  foldl run_call st calls.

(** Every registry entry refers to an allocated descriptor, and that
    descriptor is the derivation of a struct type whose [String()] is the
    entry's key. *)
Definition registry_sound (st : State) : Prop :=
  forall key p, registry st !! key = Some p ->
    exists name fields,
      deref st p = Some (Parse_new (TStruct key name fields) fields).

(** The type [Parse] works on: one pointer level removed. *)
Definition resolved (t : rtype) : rtype :=
  if Kind_eqb (Kind_of t) Ptr then Elem t else t.


End parser_notions.

(* ===================================================================== *)
(** * Part II: properties                                                  *)
(* ===================================================================== *)

Section NamingTransform.
Import strings ascii_notions naming.

Example toSnakeCase_UserName : toSnakeCase "UserName" = "user_name".
Proof. reflexivity. Qed.

Lemma toLowerRune_not_upper c : isUpper (toLowerRune c) = false.
Proof.
  unfold toLowerRune. destruct (isUpper c) eqn:E; [|exact E].
  destruct c as [[] [] [] [] [] [] [] []]; vm_compute in E |- *; congruence.
Qed.

Lemma ToLower_no_upper s : no_upper (ToLower s).
Proof.
  unfold no_upper. induction s as [|c s IH]; simpl; constructor; auto.
  apply toLowerRune_not_upper.
Qed.

Lemma rune_at_drop runes i r rest :
  drop i runes = r :: rest -> rune_at runes i = r /\ drop (S i) runes = rest.
Proof.
  revert i. induction runes as [|x runes IH]; intros [|i] H; simpl in *;
    try discriminate.
  - unfold rune_at. simpl. rewrite drop_0. by inversion H.
  - destruct (IH _ H) as [H1 H2]. split; [exact H1 | exact H2].
Qed.

(** The loop, from any index on, appends what the rule of the code gives
    for the remaining positions. *)
Lemma toSnakeCase_loop_rule runes : forall rest i result,
  drop i runes = rest ->
  toSnakeCase_loop runes i rest result =
  result ++ flat_map (fun i => (if rule_of_code runes i then [underscore] else [])
                               ++ [rune_at runes i])
                     (seq i (length rest)).
Proof.
  induction rest as [|r rest IH]; intros i result Hd; simpl.
  - by rewrite app_nil_r.
  - destruct (rune_at_drop _ _ _ _ Hd) as [Hr Hrest]. subst r.
    assert (Hstep : forall acc,
      toSnakeCase_loop runes (S i) rest (acc ++ [rune_at runes i]) =
      acc ++ [rune_at runes i] ++
        flat_map (fun i => (if rule_of_code runes i then [underscore] else [])
                           ++ [rune_at runes i]) (seq (S i) (length rest))).
    { intros acc. rewrite (IH (S i) _ Hrest). by rewrite <- app_assoc. }
    unfold rule_of_code at 1.
    destruct (Nat.eqb i 0) eqn:Ei; simpl; [by rewrite Hstep|].
    destruct (Ascii.eqb (rune_at runes i) underscore) eqn:Eu.
    { apply Ascii.eqb_eq in Eu. rewrite Hstep, Eu. reflexivity. }
    destruct (isUpper (rune_at runes i)); simpl; [|by rewrite Hstep].
    destruct (Ascii.eqb (rune_at runes (i - 1)) underscore) eqn:Ep; simpl.
    { apply Ascii.eqb_eq in Ep. rewrite Ep. simpl. by rewrite Hstep. }
    destruct (isLower (rune_at runes (i - 1))); simpl.
    { rewrite Hstep. by rewrite <- app_assoc. }
    destruct ((i + 1 <? length runes) && isLower (rune_at runes (i + 1))); simpl.
    { rewrite Hstep. by rewrite <- app_assoc. }
    by rewrite Hstep.
Qed.

Lemma toSnakeCase_by_rule s : toSnakeCase s = by_rule rule_of_code s.
Proof.
  unfold toSnakeCase, by_rule; cbv zeta.
  by rewrite (toSnakeCase_loop_rule _ _ 0 [] (drop_0 _)).
Qed.

(** C4, as stated, fails: with a digit before an uppercase character the code
    inserts an underscore that the specified rule (previous character
    lowercase, or previous uppercase and next lowercase) does not allow. *)
Lemma toSnakeCase_differs_from_specified_rule :
  toSnakeCase "OAuth2Token" = "o_auth2_token" /\
  by_rule rule_as_specified "OAuth2Token" = "o_auth2token" /\
  ~ (forall s, toSnakeCase s = by_rule rule_as_specified s).
Proof.
  split; [reflexivity|]. split; [reflexivity|].
  intros H. specialize (H "OAuth2Token"). vm_compute in H. discriminate H.
Qed.

Lemma toLowerRune_ascii c :
  ascii_rune c = true -> ascii_rune (toLowerRune c) = true.
Proof.
  destruct c as [[] [] [] [] [] [] [] []]; vm_compute; congruence.
Qed.

Lemma ToLower_ascii s : ascii_only s = true -> ascii_only (ToLower s) = true.
Proof.
  unfold ascii_only. induction s as [|c s IH]; simpl; [done|].
  intros H. apply andb_true_iff in H as [Hc Hs].
  apply andb_true_iff. split; [by apply toLowerRune_ascii | by apply IH].
Qed.

Lemma toSnakeCase_loop_ascii runes : forall rest i result,
  forallb ascii_rune rest = true ->
  forallb ascii_rune result = true ->
  forallb ascii_rune (toSnakeCase_loop runes i rest result) = true.
Proof.
  assert (Hsnoc : forall l c, forallb ascii_rune l = true -> ascii_rune c = true ->
                              forallb ascii_rune (l ++ [c]) = true).
  { intros l c Hl Hc. rewrite forallb_app. simpl. by rewrite Hl, Hc. }
  induction rest as [|r rest IH]; intros i result Hrest Hres; simpl; [done|].
  simpl in Hrest. apply andb_true_iff in Hrest as [Hr Hrest].
  destruct (Nat.eqb i 0); [by apply IH; [|apply Hsnoc]|].
  destruct (Ascii.eqb r underscore); [by apply IH; [|apply Hsnoc]|].
  apply IH; [done|]. apply Hsnoc; [|done].
  repeat match goal with
         | |- context [if ?b then _ else _] => destruct b
         end; try done; by apply Hsnoc.
Qed.

Lemma toSnakeCase_ascii s :
  ascii_only s = true -> ascii_only (toSnakeCase s) = true.
Proof.
  intros H. unfold toSnakeCase; cbv zeta. apply ToLower_ascii.
  unfold ascii_only. rewrite list_ascii_of_string_of_list_ascii.
  by apply toSnakeCase_loop_ascii.
Qed.

(** C4, amended: for every ASCII identifier, toSnakeCase writes the
    characters in order, lower-cased, with an underscore before an uppercase
    character exactly when it is not at index 0 and (a) the previous
    character is lowercase, or (b) the previous character is neither
    lowercase nor an underscore and the next character is lowercase; the
    result is ASCII and holds no uppercase letter; UserName, ID, Product and
    HTTPServer map to user_name, id, product and http_server. *)
Theorem toSnakeCase_follows_rule_of_code :
  (forall s, ascii_only s = true ->
     toSnakeCase s = by_rule rule_of_code s /\
     no_upper (toSnakeCase s) /\
     ascii_only (toSnakeCase s) = true) /\
  toSnakeCase "UserName" = "user_name" /\
  toSnakeCase "ID" = "id" /\
  toSnakeCase "Product" = "product" /\
  toSnakeCase "HTTPServer" = "http_server".
Proof.
  split; [|repeat split; reflexivity].
  intros s Hs. split; [apply toSnakeCase_by_rule|]. split.
  - unfold toSnakeCase; cbv zeta. apply ToLower_no_upper.
  - by apply toSnakeCase_ascii.
Qed.

Lemma toSnakeCase_follows_rule_of_code_witness :
  ascii_only "OAuth2Token" = true /\
  toSnakeCase "OAuth2Token" = by_rule rule_of_code "OAuth2Token" /\
  no_upper (toSnakeCase "OAuth2Token") /\
  ascii_only (toSnakeCase "OAuth2Token") = true.
Proof.
  split; [reflexivity|].
  exact (proj1 toSnakeCase_follows_rule_of_code "OAuth2Token" eq_refl).
Defined.

End NamingTransform.

Section ParserRegistry.
Import strings naming reflect meta.

Lemma Parse_struct_hit str name fields ptr st p :
  registry st !! str = Some p ->
  Parse (entity_of (TStruct str name fields) ptr) st = (Returned (Some p) None, st).
Proof. intros H. unfold Parse. destruct ptr; simpl; by rewrite H. Qed.

Lemma Parse_struct_miss str name fields ptr st :
  registry st !! str = None ->
  Parse (entity_of (TStruct str name fields) ptr) st =
  (Returned (Some (length (heap st))) None,
   mkState (heap st ++ [Parse_new (TStruct str name fields) fields])
           (<[str := length (heap st)]> (registry st))).
Proof. intros H. unfold Parse. destruct ptr; simpl; by rewrite H. Qed.

(** A call of Parse never removes or redirects a registry entry. *)
Lemma Parse_keeps_entry entity st key p :
  registry st !! key = Some p -> registry (snd (Parse entity st)) !! key = Some p.
Proof.
  intros H. unfold Parse. destruct (TypeOf entity) as [t|]; [|exact H].
  cbv zeta. set (t' := if Kind_eqb (Kind_of t) Ptr then Elem t else t).
  destruct (registry st !! String_ t') as [q|] eqn:E; [exact H|].
  destruct (fields_of t'); [|exact H]. simpl.
  rewrite lookup_insert_ne; [exact H|]. intros Heq. rewrite Heq in E. congruence.
Qed.

Lemma Parse_all_keeps_entry entities : forall st key p,
  registry st !! key = Some p -> registry (Parse_all entities st) !! key = Some p.
Proof.
  induction entities as [|e es IH]; intros st key p H; [exact H|].
  apply (IH (snd (Parse e st))). by apply Parse_keeps_entry.
Qed.

(** Every call on a struct or pointer-to-struct value returns a descriptor
    pointer and leaves it in the registry under the type's key. *)
Lemma Parse_struct_returns str name fields ptr st :
  exists p,
    fst (Parse (entity_of (TStruct str name fields) ptr) st) = Returned (Some p) None /\
    registry (snd (Parse (entity_of (TStruct str name fields) ptr) st)) !! str = Some p.
Proof.
  destruct (registry st !! str) as [p|] eqn:E.
  - exists p. by rewrite (Parse_struct_hit _ _ _ _ _ _ E).
  - exists (length (heap st)). rewrite (Parse_struct_miss _ _ _ _ _ E). simpl.
    split; [done|]. apply lookup_insert_eq.
Qed.

(** C1: for every struct type, a call of Parse on a value or pointer of that
    type returns a descriptor pointer [p], and any later call on that type,
    after any number of other Parse calls but no ClearRegistry, returns the
    same pointer [p] and changes nothing (no descriptor is derived again);
    on the first parse the descriptor is allocated and stored in the
    registry under the type's key. *)
Theorem Parse_same_instance str name fields st ptr1 ptr2 between :
  let t := TStruct str name fields in
  let st1 := snd (Parse (entity_of t ptr1) st) in
  let st2 := Parse_all between st1 in
  exists p,
    fst (Parse (entity_of t ptr1) st) = Returned (Some p) None /\
    registry st1 !! str = Some p /\
    Parse (entity_of t ptr2) st2 = (Returned (Some p) None, st2) /\
    (registry st !! str = None ->
       p = length (heap st) /\ deref st1 p = Some (Parse_new t fields)).
Proof.
  intros t st1 st2.
  destruct (Parse_struct_returns str name fields ptr1 st) as (p & Hp & Hreg).
  exists p. split; [exact Hp|]. split; [exact Hreg|]. split.
  - apply Parse_struct_hit. by apply Parse_all_keeps_entry.
  - intros Hmiss. subst st1 t. revert Hp.
    rewrite (Parse_struct_miss _ _ _ _ _ Hmiss). simpl. intros [= <-].
    split; [done|]. unfold deref. simpl.
    rewrite lookup_app_r; [|done]. by rewrite Nat.sub_diag.
Qed.

End ParserRegistry.

Section ParserResults.
Import strings ascii_notions naming reflect meta entities parser_notions.

(** C1 at a concrete input: [&User{}] parsed at program start, then
    [&Product{}], then [User{}]. *)
Lemma Parse_same_instance_witness :
  let st1 := snd (Parse (entity_of User true) State_init) in
  let st2 := Parse_all [Some (TPtr Product)] st1 in
  exists p,
    fst (Parse (entity_of User true) State_init) = Returned (Some p) None /\
    Parse (entity_of User false) st2 = (Returned (Some p) None, st2) /\
    p = 0 /\
    deref st1 p = Some (Parse_new User User_fields).
Proof.
  intros st1 st2.
  destruct (Parse_same_instance "main.User" "User" User_fields State_init
              true false [Some (TPtr Product)]) as (p & H1 & _ & H3 & H4).
  exists p. split; [exact H1|]. split; [exact H3|]. apply H4. reflexivity.
Defined.

(** After ClearRegistry the next parse derives a new instance. *)
Example Parse_after_ClearRegistry :
  let st1 := snd (Parse (Some User) State_init) in
  fst (Parse (Some User) st1) = Returned (Some 0) None /\
  fst (Parse (Some User) (ClearRegistry st1)) = Returned (Some 1) None.
Proof. split; reflexivity. Qed.

(** C2, as stated, fails: on a primitive value and on nil, Parse returns no
    ParseError; it panics. *)
Lemma Parse_non_struct_panics :
  Parse (Some int_t) State_init = (Panicked, State_init) /\
  Parse None State_init = (Panicked, State_init) /\
  ~ (exists m err, fst (Parse (Some int_t) State_init) = Returned m (Some err)).
Proof.
  split; [reflexivity|]. split; [reflexivity|].
  intros (m & err & H). discriminate H.
Qed.

Lemma parseField_untagged sf :
  StructField.Tag sf = [] ->
  parseField sf =
  Some (FieldMeta.mk (StructField.Name sf) (StructField.Type_ sf)
          (StructField.Index sf) false None false None false false false).
Proof. intros H. unfold parseField. rewrite H. reflexivity. Qed.

Lemma parseField_part_unrecognised fm part :
  recognised (TrimSpace part) = false -> parseField_part fm part = fm.
Proof.
  unfold recognised, parseField_part; cbv zeta. intros H.
  repeat (apply orb_false_iff in H as [H ?]).
  repeat match goal with
         | E : ?b = false |- context [if ?b then _ else _] => rewrite E
         end.
  reflexivity.
Qed.

Lemma foldl_parseField_part_unrecognised parts : forall fm,
  Forall (fun part => recognised (TrimSpace part) = false) parts ->
  foldl parseField_part fm parts = fm.
Proof.
  induction parts as [|part parts IH]; intros fm H; [reflexivity|].
  inversion H as [|? ? Hp Hrest]; subst. simpl.
  rewrite (parseField_part_unrecognised _ _ Hp). by apply IH.
Qed.

Lemma parseField_unrecognised sf :
  Forall (fun part => recognised part = false)
    (fragments (Get (StructField.Tag sf) "go-blar")) ->
  Contains (Get (StructField.Tag sf) "gorm") "primaryKey" = false ->
  parseField sf = Some (plain_field sf).
Proof.
  intros Hf Hg. unfold parseField; cbv zeta. rewrite Hg.
  unfold fragments in Hf. apply List.Forall_map in Hf.
  rewrite (foldl_parseField_part_unrecognised _ _ Hf).
  by destruct (negb _).
Qed.

(** C2, amended: Parse returns a descriptor and a nil error, without
    panicking, for every struct or pointer-to-struct input, whatever its
    tags; whenever Parse returns, the error is nil and the descriptor is
    not; a field without tags gets a descriptor with no metadata set; in an
    (ASCII) go-blar tag a fragment that is none of pk, nested, list, hidden,
    readonly, fk:, m2m:, count:, sum: leaves the descriptor as it was; and a
    field whose go-blar tag is missing or holds only such fragments, and
    whose gorm tag is missing or does not contain primaryKey (whatever other
    tags it carries), gets the descriptor with no metadata set. *)
Theorem Parse_struct_succeeds :
  (forall str name fields ptr st,
     exists p, fst (Parse (entity_of (TStruct str name fields) ptr) st)
               = Returned (Some p) None) /\
  (forall entity st m err,
     fst (Parse entity st) = Returned m err -> err = None /\ is_Some m) /\
  (forall sf, StructField.Tag sf = [] ->
     parseField sf =
     Some (FieldMeta.mk (StructField.Name sf) (StructField.Type_ sf)
             (StructField.Index sf) false None false None false false false)) /\
  (forall fm part,
     ascii_only part = true ->
     recognised (TrimSpace part) = false ->
     parseField_part fm part = fm) /\
  (forall sf,
     ascii_only (Get (StructField.Tag sf) "go-blar") = true ->
     Forall (fun part => recognised part = false)
       (fragments (Get (StructField.Tag sf) "go-blar")) ->
     Contains (Get (StructField.Tag sf) "gorm") "primaryKey" = false ->
     parseField sf = Some (plain_field sf)).
Proof.
  split; [|split; [|split; [exact parseField_untagged|split]]].
  - intros str name fields ptr st.
    destruct (Parse_struct_returns str name fields ptr st) as (p & Hp & _).
    by exists p.
  - intros entity st m err. unfold Parse.
    destruct (TypeOf entity) as [t|]; [|discriminate].
    cbv zeta. set (t' := if Kind_eqb (Kind_of t) Ptr then Elem t else t).
    destruct (registry st !! String_ t') as [q|].
    + intros [= <- <-]. split; [done|by eexists].
    + destruct (fields_of t'); [|discriminate].
      intros [= <- <-]. split; [done|by eexists].
  - intros fm part _. apply parseField_part_unrecognised.
  - intros sf _. apply parseField_unrecognised.
Qed.

Lemma Parse_struct_succeeds_witness :
  fst (Parse (Some User) State_init) = Returned (Some 0) None /\
  (None : option error) = None /\ is_Some (Some 0) /\
  parseField (StructField.mk "Name" "" string_t [] [1]) =
    Some (FieldMeta.mk "Name" string_t [1] false None false None false false false) /\
  parseField_part
    (FieldMeta.mk "Name" string_t [1] true None false None false false false)
    " searchable "
  = FieldMeta.mk "Name" string_t [1] true None false None false false false /\
  parseField
    (StructField.mk "Name" "" string_t
       [("json", "name"); ("go-blar", "searchable; index:name ;"); ("gorm", "size:64")]
       [1])
  = Some (FieldMeta.mk "Name" string_t [1] false None false None false false false).
Proof.
  split; [reflexivity|].
  destruct (proj1 (proj2 Parse_struct_succeeds) (Some User) State_init
              (Some 0) None eq_refl) as [H1 H2].
  split; [exact H1|]. split; [exact H2|]. split; [|split].
  - apply (proj1 (proj2 (proj2 Parse_struct_succeeds))). reflexivity.
  - apply (proj1 (proj2 (proj2 (proj2 Parse_struct_succeeds))));
      reflexivity.
  - apply (proj2 (proj2 (proj2 (proj2 Parse_struct_succeeds)))
             (StructField.mk "Name" "" string_t
                [("json", "name"); ("go-blar", "searchable; index:name ;");
                 ("gorm", "size:64")] [1])).
    + reflexivity.
    + simpl. repeat constructor.
    + reflexivity.
Defined.

End ParserResults.

Section ParserFields.
Import strings naming reflect meta entities.

Lemma Parse_fields_cons d rest i meta :
  Parse_fields (d :: rest) i meta =
  if negb (String.eqb (StructField.PkgPath (Field d i)) "")
  then Parse_fields rest (S i) meta
  else match parseField (Field d i) with
       | Some fm =>
           Parse_fields rest (S i)
             (let meta := EntityMeta.set_Fields (EntityMeta.Fields meta ++ [fm]) meta in
              if FieldMeta.IsPK fm
              then EntityMeta.set_PKField (Some fm) meta else meta)
       | None => Parse_fields rest (S i) meta
       end.
Proof. reflexivity. Qed.

Lemma visible_fields_cons d rest i :
  visible_fields (d :: rest) i =
  if String.eqb (StructField.PkgPath (Field d i)) ""
  then match parseField (Field d i) with
       | Some fm => fm :: visible_fields rest (S i)
       | None => visible_fields rest (S i)
       end
  else visible_fields rest (S i).
Proof. reflexivity. Qed.

(** The field loop appends the descriptors of the visible fields, moves the
    primary-key reference to each marked one in turn, and touches nothing
    else. *)
Lemma Parse_fields_spec fields : forall i meta,
  Parse_fields fields i meta =
  EntityMeta.mk (EntityMeta.Type_ meta) (EntityMeta.Name meta)
    (EntityMeta.TableName meta)
    (match last (List.filter FieldMeta.IsPK (visible_fields fields i)) with
     | Some fm => Some fm
     | None => EntityMeta.PKField meta
     end)
    (EntityMeta.Fields meta ++ visible_fields fields i)
    (EntityMeta.Nested meta) (EntityMeta.Aggregates meta).
Proof.
  induction fields as [|d rest IH]; intros i meta.
  - simpl. rewrite app_nil_r. by destruct meta.
  - rewrite Parse_fields_cons, visible_fields_cons.
    destruct (String.eqb (StructField.PkgPath (Field d i)) "");
      cbn [negb]; [|apply IH].
    destruct (parseField (Field d i)) as [fm|]; [|apply IH].
    rewrite IH. cbn [List.filter].
    destruct (FieldMeta.IsPK fm) eqn:Epk; cbn; rewrite <- app_assoc;
      [|reflexivity].
    rewrite last_cons.
    by destruct (last (List.filter FieldMeta.IsPK (visible_fields rest (S i)))).
Qed.

Lemma Parse_new_Fields t fields :
  EntityMeta.Fields (Parse_new t fields) = visible_fields fields 0.
Proof.
  unfold Parse_new; cbv zeta. rewrite Parse_fields_spec. simpl.
  destruct (FieldByName fields "gorm") as [sf|]; [|reflexivity].
  by destruct (negb _).
Qed.

Lemma Parse_new_PKField t fields :
  EntityMeta.PKField (Parse_new t fields) =
  last (List.filter FieldMeta.IsPK (visible_fields fields 0)).
Proof.
  unfold Parse_new; cbv zeta. rewrite Parse_fields_spec. simpl.
  destruct (last _) as [fm|]; [reflexivity|].
  destruct (FieldByName fields "gorm") as [sf|]; [|reflexivity].
  by destruct (negb _).
Qed.

Lemma Parse_new_Aggregates t fields :
  EntityMeta.Aggregates (Parse_new t fields) = [].
Proof.
  unfold Parse_new; cbv zeta. rewrite Parse_fields_spec. simpl.
  destruct (FieldByName fields "gorm") as [sf|]; [|reflexivity].
  by destruct (negb _).
Qed.

(** A first parse returns a pointer to the freshly derived descriptor. *)
Lemma Parse_first str name fields ptr st :
  registry st !! str = None ->
  exists p,
    fst (Parse (entity_of (TStruct str name fields) ptr) st) = Returned (Some p) None /\
    deref (snd (Parse (entity_of (TStruct str name fields) ptr) st)) p =
      Some (Parse_new (TStruct str name fields) fields).
Proof.
  intros H. exists (length (heap st)).
  rewrite (Parse_struct_miss _ _ _ _ _ H). simpl. split; [done|].
  unfold deref. simpl. rewrite lookup_app_r; [|done]. by rewrite Nat.sub_diag.
Qed.

(** C3, as stated, fails: ProductToPrice marks ProductID and TagID as
    primary key, and the descriptor's primary-key reference is TagID, the
    second. *)
Lemma Parse_pk_is_not_first :
  exists d,
    deref (snd (Parse (Some (TPtr ProductToPrice)) State_init)) 0 = Some d /\
    map FieldMeta.Name (List.filter FieldMeta.IsPK (EntityMeta.Fields d))
      = ["ProductID"; "TagID"] /\
    FieldMeta.Name <$> EntityMeta.PKField d = Some "TagID" /\
    EntityMeta.PKField d <> head (List.filter FieldMeta.IsPK (EntityMeta.Fields d)).
Proof.
  eexists. split; [reflexivity|]. split; [reflexivity|]. split; [reflexivity|].
  vm_compute. discriminate.
Qed.

(** C3, amended: on a first parse of a struct type the descriptor lists the
    descriptors of the visible fields in declaration order, and its
    primary-key reference is the last of them that is marked primary key
    (each later match overwrites the earlier one); nil when none is. *)
Theorem Parse_pk_is_last str name fields ptr st :
  registry st !! str = None ->
  exists p d,
    fst (Parse (entity_of (TStruct str name fields) ptr) st) = Returned (Some p) None /\
    deref (snd (Parse (entity_of (TStruct str name fields) ptr) st)) p = Some d /\
    EntityMeta.Fields d = visible_fields fields 0 /\
    EntityMeta.PKField d = last (List.filter FieldMeta.IsPK (EntityMeta.Fields d)).
Proof.
  intros H. destruct (Parse_first str name fields ptr st H) as (p & Hp & Hd).
  exists p, (Parse_new (TStruct str name fields) fields).
  split; [exact Hp|]. split; [exact Hd|].
  rewrite Parse_new_Fields. split; [reflexivity|]. apply Parse_new_PKField.
Qed.

Lemma Parse_pk_is_last_witness :
  registry State_init !! "test.ProductToPrice" = None /\
  exists p d,
    fst (Parse (entity_of ProductToPrice true) State_init) = Returned (Some p) None /\
    deref (snd (Parse (entity_of ProductToPrice true) State_init)) p = Some d /\
    EntityMeta.Fields d = visible_fields ProductToPrice_fields 0 /\
    EntityMeta.PKField d = last (List.filter FieldMeta.IsPK (EntityMeta.Fields d)).
Proof.
  split; [reflexivity|].
  apply (Parse_pk_is_last "test.ProductToPrice" "ProductToPrice"
           ProductToPrice_fields true State_init).
  reflexivity.
Defined.

End ParserFields.

Section TableName.
Import strings naming reflect meta entities.

Lemma Parse_new_Name t fields :
  EntityMeta.Name (Parse_new t fields) = Name t.
Proof.
  unfold Parse_new; cbv zeta. rewrite Parse_fields_spec.
  cbn [EntityMeta.Name].
  destruct (FieldByName fields "gorm") as [sf|]; [|reflexivity].
  by destruct (negb _).
Qed.

(** C5 on the code: Person carries the fragment table:people inside the gorm
    annotation of its ID field, and Parse still gives it the default table
    name, persons: the override is looked up on a struct field named gorm
    only, as Member has it. Product and User, without a table: fragment, get
    the defaults products and users. *)
Theorem Parse_table_fragment_on_field_ignored :
  (exists d,
     deref (snd (Parse (Some (TPtr Person)) State_init)) 0 = Some d /\
     (exists sf, FieldByName Person_fields "ID" = Some sf /\
                 Split (Get (StructField.Tag sf) "gorm") semicolon
                   = ["primaryKey"; "table:people"]) /\
     FieldByName Person_fields "gorm" = None /\
     EntityMeta.Name d = "Person" /\
     EntityMeta.TableName d = "persons" /\
     EntityMeta.TableName d <> "people") /\
  EntityMeta.TableName <$> heap (snd (Parse (Some (TPtr Member)) State_init))
    = ["people"] /\
  EntityMeta.TableName <$>
    heap (Parse_all [Some (TPtr Product); Some (TPtr User)] State_init)
    = ["products"; "users"].
Proof.
  split; [|split; vm_compute; reflexivity].
  eexists. split; [reflexivity|]. split; [eexists; split; reflexivity|].
  split; [reflexivity|]. split; [reflexivity|].
  split; [reflexivity|]. vm_compute. discriminate.
Qed.

End TableName.

Section Annotations.
Import strings naming reflect meta entities.

(** C7 on the code: no descriptor Parse derives holds an aggregate, so the
    lookup by name finds none; for Order, whose ItemCount and ItemSum fields
    are tagged count:Items and sum:Items.Price, the aggregate sequence is
    empty and both lookups give nil. *)
Theorem Parse_drops_aggregates :
  (forall t fields name,
     EntityMeta.Aggregates (Parse_new t fields) = [] /\
     EntityMeta.GetAggregateByName (Parse_new t fields) name = None) /\
  (exists d,
     deref (snd (Parse (Some (TPtr Order)) State_init)) 0 = Some d /\
     FieldMeta.Name <$> EntityMeta.Fields d = ["ID"; "ItemCount"; "ItemSum"; "Items"] /\
     EntityMeta.Aggregates d = [] /\
     EntityMeta.GetAggregateByName d "ItemCount" = None /\
     EntityMeta.GetAggregateByName d "ItemSum" = None).
Proof.
  split.
  - intros t fields name. unfold EntityMeta.GetAggregateByName.
    by rewrite Parse_new_Aggregates.
  - eexists. repeat split; reflexivity.
Qed.

Lemma HasPrefix_app sub post : HasPrefix (sub +:+ post) sub = true.
Proof.
  induction sub as [|c sub IH]; [by destruct post|].
  simpl. by rewrite Ascii.eqb_refl.
Qed.

Lemma Contains_unfold s sub :
  Contains s sub =
  HasPrefix s sub ||
  match s with
  | EmptyString => false
  | String _ s' => Contains s' sub
  end.
Proof. by destruct s. Qed.

Lemma Contains_app pre sub post : Contains (pre +:+ sub +:+ post) sub = true.
Proof.
  induction pre as [|c pre IH].
  - change ("" +:+ sub +:+ post) with (sub +:+ post).
    by rewrite Contains_unfold, HasPrefix_app.
  - change (String c pre +:+ sub +:+ post) with (String c (pre +:+ sub +:+ post)).
    rewrite Contains_unfold, IH. apply orb_true_r.
Qed.

(** C10: whenever a field's gorm tag contains the characters primaryKey
    anywhere (whatever comes before and after them in the tag), parseField
    marks the field as primary key. *)
Theorem parseField_primaryKey_anywhere sf pre post :
  Get (StructField.Tag sf) "gorm" = pre +:+ "primaryKey" +:+ post ->
  exists fm, parseField sf = Some fm /\ FieldMeta.IsPK fm = true.
Proof.
  intros H. unfold parseField; cbv zeta. rewrite H, Contains_app.
  eexists. split; reflexivity.
Qed.

Lemma parseField_primaryKey_anywhere_witness :
  Get (StructField.Tag Legacy_Ref) "gorm" = "column:" +:+ "primaryKey" +:+ "Backup;index" /\
  exists fm, parseField Legacy_Ref = Some fm /\ FieldMeta.IsPK fm = true.
Proof.
  split; [reflexivity|].
  apply (parseField_primaryKey_anywhere Legacy_Ref "column:" "Backup;index").
  reflexivity.
Defined.

End Annotations.

Section HookDispatch.
Import hooks.
Context {Ctx Tx World : Type}.

(** C9: for each of the six dispatch operations and every entity instance:
    if the instance implements the hook interface, the operation runs the
    hook method once (one invocation is recorded, after those made before)
    and returns the method's result and world unchanged; if it does not,
    the operation returns nil, records no invocation and leaves the world
    as it was. *)
Theorem Call_dispatch (k : goblar.Hook) (ctx : Ctx) (entity : Entity Ctx Tx World)
    (tx : Tx) (w : World) (calls : list goblar.Hook) :
  Call k ctx entity tx (w, calls) =
  match method entity k with
  | Some h => (fst (h ctx tx w), (snd (h ctx tx w), calls ++ [k]))
  | None => (None, (w, calls))
  end.
Proof.
  destruct k; cbn [Call];
    unfold CallBeforeCreate, CallAfterCreate, CallBeforeUpdate, CallAfterUpdate,
      CallBeforeDelete, CallAfterDelete;
    match goal with |- context [method entity ?k] =>
      destruct (method entity k) as [h|]; [|reflexivity]
    end;
    unfold invoke; cbn [fst snd]; by destruct (h ctx tx w).
Qed.

End HookDispatch.

Section HookTests.
Import hooks.

(** TestMultipleHooks: the six dispatch calls in sequence on one mock set
    all six flags, each hook being invoked once. *)
Example Call_all_six :
  let run k s := snd (Call k tt MockEntity tt s) in
  let s := foldl (fun s k => run k s) (Mock_zero, [])
             [goblar.BeforeCreate; goblar.AfterCreate; goblar.BeforeUpdate;
              goblar.AfterUpdate; goblar.BeforeDelete; goblar.AfterDelete] in
  fst s = mkMock true true true true true true false /\
  snd s = [goblar.BeforeCreate; goblar.AfterCreate; goblar.BeforeUpdate;
           goblar.AfterUpdate; goblar.BeforeDelete; goblar.AfterDelete].
Proof. split; reflexivity. Qed.

(** TestCallBeforeCreateWithError and TestCallBeforeCreateNoImplementation. *)
Example Call_error_and_absent :
  fst (CallBeforeCreate tt MockEntity tt
         (mkMock false false false false false false true, []))
    = Some "before create failed" /\
  CallBeforeCreate tt SimpleEntity tt (Mock_zero, []) = (None, (Mock_zero, [])).
Proof. split; reflexivity. Qed.

End HookTests.

Section Routes.
Import strings http entities.

(** C6 on the code: for the User descriptor route registration adds five
    routes (POST and GET on the resource, GET, PUT and DELETE on
    resource/{id}, for the create, list, get, update and delete handlers),
    but the resource segment is not the lowercased name: toURLPath adds 33
    to every character, so User becomes the bytes 118 148 134 147 and not
    user. *)
Theorem toURLPath_User_is_not_lowercased :
  let user := meta.Parse_new User User_fields in
  let segment :=
    string_of_list_ascii
      [ascii_of_N 118; ascii_of_N 148; ascii_of_N 134; ascii_of_N 147] in
  EntityMeta.Name user = "User" /\
  (verb <$> RegisterEntityRoutes [] user) = [POST; GET; GET; PUT; DELETE] /\
  (pattern <$> RegisterEntityRoutes [] user) =
    [ "/" +:+ segment; "/" +:+ segment;
      "/" +:+ segment +:+ "/{id}"; "/" +:+ segment +:+ "/{id}";
      "/" +:+ segment +:+ "/{id}" ] /\
  (handler <$> RegisterEntityRoutes [] user) =
    [ (CreateHandler, user); (ListHandler, user); (GetHandler, user);
      (UpdateHandler, user); (DeleteHandler, user) ] /\
  toURLPath "User" = segment /\
  toURLPath "User" <> ToLower "User" /\
  ToLower "User" = "user".
Proof.
  cbv zeta. split; [reflexivity|]. split; [reflexivity|].
  split; [reflexivity|]. split; [reflexivity|]. split; [reflexivity|].
  split; [vm_compute; discriminate|reflexivity].
Qed.

End Routes.

Section RepositoryWithoutDriver.
Import repo.
Context {T Id Ctx Handle Store : Type}.
Variable driver : @Driver T Id Ctx Handle Store.

(** With a driver handle each operation goes to the driver: the storage
    operation is recorded. *)
Lemma Repository_with_driver_calls_storage h meta ctx (entity : T) (id : Id) store ops :
  snd (snd (Create driver (New (Some h) meta) ctx entity (store, ops))) = ops ++ [OpCreate] /\
  snd (snd (GetByID driver (New (Some h) meta) ctx id (store, ops))) = ops ++ [OpFirst] /\
  snd (snd (GetAll driver (New (Some h) meta) ctx (store, ops))) = ops ++ [OpFind] /\
  snd (snd (Update driver (New (Some h) meta) ctx entity (store, ops))) = ops ++ [OpSave] /\
  snd (snd (Delete driver (New (Some h) meta) ctx id (store, ops))) = ops ++ [OpDelete] /\
  snd (snd (Count driver (New (Some h) meta) ctx (store, ops))) = ops ++ [OpCount].
Proof.
  unfold Create, GetByID, GetAll, Update, Delete, Count, storage; cbn [New db fst snd].
  repeat split.
  - by destruct (drvCreate driver h ctx entity store).
  - by destruct (drvFirst driver h ctx id store) as [[e [err|]] st].
  - by destruct (drvFind driver h ctx store) as [[es [err|]] st].
  - by destruct (drvSave driver h ctx entity store).
  - by destruct (drvDelete driver h ctx id store).
  - by destruct (drvCount driver h ctx store).
Qed.

(** C8: on a repository constructed with no driver handle, each of Create,
    GetByID, GetAll, Update, Delete and Count returns gorm.ErrInvalidDB (the
    specification's NoStorageConfigured), with nil, empty or zero for its
    other result, and returns at once: the storage and the record of driver
    operations are as before the call. *)
Theorem Repository_without_driver meta (ctx : Ctx) (entity : T) (id : Id)
    (s : Store * list Op) :
  let r : @Repository Handle := New None meta in
  Create driver r ctx entity s = ((entity, Some gorm.ErrInvalidDB), s) /\
  GetByID driver r ctx id s = ((None, Some gorm.ErrInvalidDB), s) /\
  GetAll driver r ctx s = (([], Some gorm.ErrInvalidDB), s) /\
  Update driver r ctx entity s = ((entity, Some gorm.ErrInvalidDB), s) /\
  Delete driver r ctx id s = (Some gorm.ErrInvalidDB, s) /\
  Count driver r ctx s = ((0%Z, Some gorm.ErrInvalidDB), s).
Proof. repeat split. Qed.

End RepositoryWithoutDriver.

(* ===================================================================== *)
(** * Part III: further properties of the code                             *)
(* ===================================================================== *)

Section NamingFurther.
Import strings ascii_notions naming parser_notions.

Lemma ToLower_fixed s : no_upper s -> ToLower s = s.
Proof.
  unfold no_upper. induction s as [|c s IH]; [reflexivity|].
  cbn [list_ascii_of_string ToLower]. intros H. inversion H as [|? ? Hc Hs]; subst.
  unfold toLowerRune. rewrite Hc, IH; [reflexivity|exact Hs].
Qed.

Lemma list_ascii_of_ToLower s :
  list_ascii_of_string (ToLower s) = map toLowerRune (list_ascii_of_string s).
Proof. induction s as [|c s IH]; [reflexivity|]. cbn. by rewrite IH. Qed.

(** With a rule that asks for no underscore at the positions left to
    visit, writing by the rule copies the remaining characters. *)
Lemma by_rule_copy rule runes : forall rest i,
  drop i runes = rest ->
  (forall j, i <= j < i + length rest -> rule runes j = false) ->
  flat_map (fun i => (if rule runes i then [underscore] else []) ++ [rune_at runes i])
           (seq i (length rest)) = rest.
Proof.
  induction rest as [|r rest IH]; intros i Hd Hrule; [reflexivity|].
  destruct (rune_at_drop _ _ _ _ Hd) as [Hr Hrest].
  cbn [length seq flat_map]. rewrite (Hrule i), Hr by (simpl; lia).
  cbn [app]. f_equal. apply IH; [exact Hrest|].
  intros j Hj. apply Hrule. simpl. lia.
Qed.

Lemma rune_at_Forall (P : rune -> Prop) runes i :
  Forall P runes -> i < length runes -> P (rune_at runes i).
Proof.
  intros H Hi. unfold rune_at. rewrite Forall_forall in H. apply H.
  apply list_elem_of_In, nth_In, Hi.
Qed.

Lemma toSnakeCase_fixed s : no_upper s -> toSnakeCase s = s.
Proof.
  intros H. rewrite toSnakeCase_by_rule. unfold by_rule; cbv zeta.
  assert (E := by_rule_copy rule_of_code _ (list_ascii_of_string s) 0 (drop_0 _)).
  unfold rune in E |- *. rewrite E.
  - rewrite string_of_list_ascii_of_string. by apply ToLower_fixed.
  - intros j Hj. unfold rule_of_code.
    assert (Hu : isUpper (rune_at (list_ascii_of_string s) j) = false).
    { apply (rune_at_Forall (fun c => isUpper c = false)); [exact H|].
      unfold rune in *. lia. }
    by rewrite Hu, andb_false_r.
Qed.

(** X1: an ASCII identifier that holds no uppercase letter is returned as it
    is; the result of the transform on an ASCII identifier is such an
    identifier, so the transform is idempotent on ASCII identifiers. *)
Theorem toSnakeCase_idempotent s :
  ascii_only s = true ->
  (no_upper s -> toSnakeCase s = s) /\
  toSnakeCase (toSnakeCase s) = toSnakeCase s.
Proof.
  intros _. split; [apply toSnakeCase_fixed|].
  apply toSnakeCase_fixed. unfold toSnakeCase; cbv zeta. apply ToLower_no_upper.
Qed.

Lemma toSnakeCase_idempotent_witness :
  ascii_only "user_name2" = true /\
  no_upper "user_name2" /\ toSnakeCase "user_name2" = "user_name2" /\
  toSnakeCase (toSnakeCase "user_name2") = toSnakeCase "user_name2".
Proof.
  assert (H : no_upper "user_name2").
  { unfold no_upper. cbn. repeat constructor. }
  split; [reflexivity|]. split; [exact H|].
  split.
  - exact (proj1 (toSnakeCase_idempotent "user_name2" eq_refl) H).
  - exact (proj2 (toSnakeCase_idempotent "user_name2" eq_refl)).
Defined.

Lemma toLowerRune_underscore c :
  Ascii.eqb (toLowerRune c) underscore = Ascii.eqb c underscore.
Proof.
  destruct c as [[] [] [] [] [] [] [] []]; reflexivity.
Qed.

Lemma filter_map_toLower l :
  List.filter (fun c => negb (Ascii.eqb c underscore)) (map toLowerRune l) =
  map toLowerRune (List.filter (fun c => negb (Ascii.eqb c underscore)) l).
Proof.
  induction l as [|c l IH]; [reflexivity|].
  cbn [map List.filter]. rewrite toLowerRune_underscore, IH.
  by destruct (negb (Ascii.eqb c underscore)).
Qed.

Lemma by_rule_shape (rule : list rune -> nat -> bool) (runes : list rune) :
  forall rest i,
  drop i runes = rest ->
  let out := flat_map (fun i => (if rule runes i then [underscore] else [])
                                ++ [rune_at runes i]) (seq i (length rest)) in
  List.filter (fun c => negb (Ascii.eqb c underscore)) out =
    List.filter (fun c => negb (Ascii.eqb c underscore)) rest /\
  length rest <= length out <= 2 * length rest.
Proof.
  induction rest as [|r rest IH]; intros i Hd out.
  - subst out. cbn. repeat split; lia.
  - destruct (rune_at_drop _ _ _ _ Hd) as [Hr Hrest].
    destruct (IH _ Hrest) as (IH1 & IH2).
    subst out. cbn [length seq flat_map]. rewrite Hr.
    unfold rune in *. rewrite !List.filter_app, !length_app, IH1.
    destruct (rule runes i); cbn; repeat split; try lia;
      by destruct (negb (Ascii.eqb r underscore)).
Qed.

Lemma string_length_list s : String.length s = length (list_ascii_of_string s).
Proof. induction s as [|c s IH]; [reflexivity|]. cbn. by rewrite IH. Qed.

(** X2: on an ASCII identifier the transform only lower-cases and adds
    underscores: without its underscores the result is the lower-cased
    input without its underscores; the result is at least as long as the
    input and at most twice as long; and it never begins with an underscore
    the input does not begin with. *)
Theorem toSnakeCase_only_adds_underscores s :
  ascii_only s = true ->
  without_underscores (toSnakeCase s) = without_underscores (ToLower s) /\
  String.length s <= String.length (toSnakeCase s) <= 2 * String.length s /\
  head (list_ascii_of_string (toSnakeCase s)) =
    head (list_ascii_of_string (ToLower s)).
Proof.
  intros _.
  rewrite toSnakeCase_by_rule. unfold by_rule, without_underscores; cbv zeta.
  destruct (by_rule_shape rule_of_code (list_ascii_of_string s) _ 0 (drop_0 _))
    as (H1 & H2).
  unfold rune in H1, H2 |- *.
  rewrite !list_ascii_of_ToLower, list_ascii_of_string_of_list_ascii.
  rewrite !filter_map_toLower, H1. split; [reflexivity|]. split.
  - rewrite !string_length_list, list_ascii_of_ToLower,
      list_ascii_of_string_of_list_ascii, length_map. exact H2.
  - destruct (list_ascii_of_string s) as [|c l]; reflexivity.
Qed.

Lemma toSnakeCase_only_adds_underscores_witness :
  ascii_only "HTTP_Server2Go" = true /\
  toSnakeCase "HTTP_Server2Go" = "http_server2_go" /\
  without_underscores (toSnakeCase "HTTP_Server2Go")
    = without_underscores (ToLower "HTTP_Server2Go") /\
  String.length "HTTP_Server2Go" <= String.length (toSnakeCase "HTTP_Server2Go")
    <= 2 * String.length "HTTP_Server2Go" /\
  head (list_ascii_of_string (toSnakeCase "HTTP_Server2Go")) =
    head (list_ascii_of_string (ToLower "HTTP_Server2Go")).
Proof.
  split; [reflexivity|]. split; [reflexivity|].
  exact (toSnakeCase_only_adds_underscores "HTTP_Server2Go" eq_refl).
Defined.

End NamingFurther.

Section RegistryFurther.
Import strings naming reflect meta entities test_entities parser_notions.

Lemma deref_alloc st d :
  deref (mkState (heap st ++ [d]) (registry st)) (length (heap st)) = Some d.
Proof.
  unfold deref. simpl. rewrite lookup_app_r; [|done]. by rewrite Nat.sub_diag.
Qed.

Lemma Parse_heap_grows entity st :
  exists new, heap (snd (Parse entity st)) = heap st ++ new /\ length new <= 1.
Proof.
  assert (Hsame : exists new, heap st = heap st ++ new /\ length new <= 1).
  { exists []. rewrite app_nil_r. split; [reflexivity|simpl; lia]. }
  unfold Parse. destruct (TypeOf entity) as [t|]; [|exact Hsame].
  cbv zeta. destruct (registry st !! _); [exact Hsame|].
  destruct (fields_of _) as [fields|]; [|exact Hsame].
  eexists [_]. split; [reflexivity|]. simpl. lia.
Qed.

Lemma Parse_keeps_descriptor entity st q d :
  deref st q = Some d -> deref (snd (Parse entity st)) q = Some d.
Proof.
  unfold deref. intros H. destruct (Parse_heap_grows entity st) as (new & -> & _).
  by apply lookup_app_l_Some.
Qed.

Lemma Parse_sound entity st :
  registry_sound st -> registry_sound (snd (Parse entity st)).
Proof.
  intros Hs. unfold Parse. destruct (TypeOf entity) as [t|]; [|exact Hs].
  cbv zeta. fold (resolved t).
  destruct (registry st !! String_ (resolved t)) as [q|] eqn:E; [exact Hs|].
  destruct (resolved t) as [str name|e|str name fields]; try exact Hs.
  cbn [fields_of snd String_] in *. intros key p. cbn [registry].
  destruct (decide (str = key)) as [<-|Hne].
  - rewrite lookup_insert_eq. intros [= <-]. exists name, fields.
    unfold deref. cbn [heap]. rewrite lookup_app_r; [|done].
    by rewrite Nat.sub_diag.
  - rewrite lookup_insert_ne by done. intros H.
    destruct (Hs key p H) as (n & fs & Hd). exists n, fs.
    unfold deref in *. cbn [heap]. by apply lookup_app_l_Some.
Qed.

Lemma run_call_sound st c : registry_sound st -> registry_sound (run_call st c).
Proof.
  destruct c as [entity|]; cbn [run_call].
  - apply Parse_sound.
  - intros _ key p. cbn. by rewrite lookup_empty.
Qed.

Lemma run_calls_sound calls : forall st,
  registry_sound st -> registry_sound (run_calls calls st).
Proof.
  induction calls as [|c calls IH]; intros st H; [exact H|].
  apply (IH (run_call st c)). by apply run_call_sound.
Qed.

(** X3: in every state the program can reach from its start by calls of
    Parse and ClearRegistry, each registry entry refers to an allocated
    descriptor, and that descriptor is the one derived from a struct type
    whose String() is the entry's key. *)
Theorem registry_sound_reachable calls :
  registry_sound (run_calls calls State_init).
Proof.
  apply run_calls_sound. intros key p. cbn. by rewrite lookup_empty.
Qed.

Lemma registry_sound_reachable_witness :
  exists name fields,
    deref (run_calls [CallParse (Some (TPtr Product)); CallClearRegistry;
                      CallParse (Some User)] State_init) 1
      = Some (Parse_new (TStruct "main.User" name fields) fields).
Proof.
  apply (registry_sound_reachable
           [CallParse (Some (TPtr Product)); CallClearRegistry;
            CallParse (Some User)] "main.User" 1).
  reflexivity.
Defined.

(** X4: a descriptor once allocated stays where it is and as it is, through
    any later calls of Parse and ClearRegistry: a pointer Parse has returned
    never dangles and never sees a change. *)
Theorem descriptor_persists calls st q d :
  deref st q = Some d -> deref (run_calls calls st) q = Some d.
Proof.
  revert st. induction calls as [|c calls IH]; intros st H; [exact H|].
  apply (IH (run_call st c)). destruct c as [entity|]; cbn [run_call].
  - by apply Parse_keeps_descriptor.
  - exact H.
Qed.

Lemma descriptor_persists_witness :
  let st := snd (Parse (Some (TPtr User)) State_init) in
  deref st 0 = Some (Parse_new User User_fields) /\
  deref (run_calls [CallClearRegistry; CallParse (Some (TPtr User));
                    CallParse (Some Product)] st) 0
    = Some (Parse_new User User_fields).
Proof.
  intros st. split; [reflexivity|].
  apply (descriptor_persists _ st 0). reflexivity.
Defined.

(** X5: after ClearRegistry the next parse of a struct type derives a new
    descriptor at a location no earlier descriptor occupies, and the
    registry holds that one entry alone. *)
Theorem Parse_after_ClearRegistry_is_fresh str name fields ptr st :
  let t := TStruct str name fields in
  let st' := snd (Parse (entity_of t ptr) (ClearRegistry st)) in
  exists p,
    fst (Parse (entity_of t ptr) (ClearRegistry st)) = Returned (Some p) None /\
    deref st p = None /\
    deref st' p = Some (Parse_new t fields) /\
    registry st' = {[ str := p ]}.
Proof.
  intros t st'. exists (length (heap st)). subst st' t.
  rewrite (Parse_struct_miss str name fields ptr (ClearRegistry st))
    by (cbn; apply lookup_empty).
  cbn [fst snd ClearRegistry heap registry]. split; [reflexivity|]. split.
  - unfold deref. by apply lookup_ge_None_2.
  - split; [apply deref_alloc with (st := mkState (heap st) _)|].
    by rewrite insert_empty.
Qed.

(** X6: the cache is keyed by String() alone: once a struct type is parsed,
    parsing a different struct type that prints the same returns the first
    type's descriptor, and nothing is derived for the second. *)
Theorem Parse_same_string_shares_descriptor
    str name1 fields1 name2 fields2 ptr1 ptr2 st :
  registry st !! str = None ->
  let st1 := snd (Parse (entity_of (TStruct str name1 fields1) ptr1) st) in
  exists p,
    Parse (entity_of (TStruct str name2 fields2) ptr2) st1
      = (Returned (Some p) None, st1) /\
    deref st1 p = Some (Parse_new (TStruct str name1 fields1) fields1).
Proof.
  intros Hmiss st1. exists (length (heap st)). subst st1.
  rewrite (Parse_struct_miss _ _ _ _ _ Hmiss). cbn [snd]. split.
  - apply Parse_struct_hit. cbn. apply lookup_insert_eq.
  - apply deref_alloc.
Qed.

Lemma Parse_same_string_shares_descriptor_witness :
  registry State_init !! "meta.Product" = None /\
  let st1 := snd (Parse (entity_of BasicProduct true) State_init) in
  exists p,
    Parse (entity_of PlainProduct true) st1 = (Returned (Some p) None, st1) /\
    deref st1 p = Some (Parse_new BasicProduct BasicProduct_fields).
Proof.
  split; [reflexivity|].
  apply (Parse_same_string_shares_descriptor "meta.Product" "Product"
           BasicProduct_fields "Product" PlainProduct_fields true true State_init).
  reflexivity.
Defined.

(** X7: Parse panics exactly on the nil value and on a value whose type,
    one pointer level removed, is not a struct and has no cached entry
    under its String(); a pointer to a pointer to a struct is such a value.
    A panic leaves heap and registry as they were. *)
Theorem Parse_panics_iff entity st :
  (fst (Parse entity st) = Panicked <->
   entity = None \/
   exists t, entity = Some t /\
             registry st !! String_ (resolved t) = None /\
             Kind_of (resolved t) <> Struct) /\
  (fst (Parse entity st) = Panicked -> snd (Parse entity st) = st).
Proof.
  unfold Parse. destruct entity as [t|]; cbn [TypeOf].
  2:{ split; [split; [by left|done]|done]. }
  cbv zeta. fold (resolved t).
  destruct (registry st !! String_ (resolved t)) as [q|] eqn:E.
  { split; [|done]. split; [done|].
    intros [H|(t' & [= <-] & H & _)]; [done|]. congruence. }
  destruct (resolved t) as [s n|e|s n fs] eqn:Er; cbn [fields_of fst snd].
  - split; [|done]. split; [|done]. intros _. right. exists t.
    rewrite Er. by repeat split.
  - split; [|done]. split; [|done]. intros _. right. exists t.
    rewrite Er. by repeat split.
  - split; [|done]. split; [done|].
    intros [H|(t' & [= <-] & _ & H)]; [done|]. rewrite Er in H. by destruct H.
Qed.

Lemma Parse_panics_iff_witness :
  fst (Parse (Some (TPtr (TPtr User))) State_init) = Panicked /\
  snd (Parse (Some (TPtr (TPtr User))) State_init) = State_init.
Proof.
  assert (H : fst (Parse (Some (TPtr (TPtr User))) State_init) = Panicked).
  { apply (proj1 (Parse_panics_iff (Some (TPtr (TPtr User))) State_init)).
    right. exists (TPtr (TPtr User)). split; [reflexivity|].
    split; [reflexivity|]. cbn. discriminate. }
  split; [exact H|].
  exact (proj2 (Parse_panics_iff (Some (TPtr (TPtr User))) State_init) H).
Defined.

End RegistryFurther.

Section FieldsFurther.
Import strings naming reflect meta entities test_entities parser_notions.

Ltac split_ifs :=
  repeat match goal with
         | |- context [if ?b then _ else _] => destruct b
         end.

Lemma parseField_part_keeps fm part :
  FieldMeta.Name (parseField_part fm part) = FieldMeta.Name fm /\
  FieldMeta.Type_ (parseField_part fm part) = FieldMeta.Type_ fm /\
  FieldMeta.Index (parseField_part fm part) = FieldMeta.Index fm.
Proof. unfold parseField_part; cbv zeta. split_ifs; by repeat split. Qed.

Lemma foldl_parseField_part_keeps parts : forall fm,
  FieldMeta.Name (foldl parseField_part fm parts) = FieldMeta.Name fm /\
  FieldMeta.Type_ (foldl parseField_part fm parts) = FieldMeta.Type_ fm /\
  FieldMeta.Index (foldl parseField_part fm parts) = FieldMeta.Index fm.
Proof.
  induction parts as [|part parts IH]; intros fm; [by repeat split|].
  cbn [foldl]. destruct (IH (parseField_part fm part)) as (H1 & H2 & H3).
  destruct (parseField_part_keeps fm part) as (K1 & K2 & K3).
  repeat split; congruence.
Qed.

Lemma parseField_keeps sf :
  exists fm, parseField sf = Some fm /\
    FieldMeta.Name fm = StructField.Name sf /\
    FieldMeta.Type_ fm = StructField.Type_ sf /\
    FieldMeta.Index fm = StructField.Index sf.
Proof.
  unfold parseField; cbv zeta. eexists. split; [reflexivity|].
  destruct (Contains _ _); destruct (negb _); cbn;
    try apply foldl_parseField_part_keeps; by repeat split.
Qed.

Lemma Field_decl d i :
  StructField.Name (Field d i) = decl_name d /\
  StructField.PkgPath (Field d i) = decl_pkgPath d /\
  StructField.Type_ (Field d i) = decl_type d /\
  StructField.Tag (Field d i) = decl_tag d /\
  StructField.Index (Field d i) = [i].
Proof. by destruct d. Qed.

Lemma visible_fields_declared fields : forall i,
  FieldMeta.Name <$> visible_fields fields i =
    decl_name <$> List.filter (fun d => String.eqb (decl_pkgPath d) "") fields /\
  forall fm, fm ∈ visible_fields fields i ->
    exists j d, fields !! j = Some d /\ decl_pkgPath d = "" /\
      parseField (Field d (i + j)) = Some fm /\
      FieldMeta.Index fm = [i + j] /\
      FieldMeta.Name fm = decl_name d /\
      FieldMeta.Type_ fm = decl_type d.
Proof.
  induction fields as [|d rest IH]; intros i.
  { split; [reflexivity|]. intros fm H. by apply elem_of_nil in H. }
  destruct (IH (S i)) as [IHn IHm]. rewrite visible_fields_cons.
  destruct (Field_decl d i) as (Fn & Fp & Ft & _ & Fi).
  assert (Hrest : forall fm, fm ∈ visible_fields rest (S i) ->
    exists j d0, (d :: rest) !! j = Some d0 /\ decl_pkgPath d0 = "" /\
      parseField (Field d0 (i + j)) = Some fm /\
      FieldMeta.Index fm = [i + j] /\
      FieldMeta.Name fm = decl_name d0 /\ FieldMeta.Type_ fm = decl_type d0).
  { intros fm H. destruct (IHm fm H) as (j & d0 & H1 & H2 & H3 & H4 & H5 & H6).
    exists (S j), d0. replace (i + S j) with (S i + j) by lia. by repeat split. }
  cbn [List.filter]. rewrite Fp.
  destruct (String.eqb_spec (decl_pkgPath d) "") as [Ep|Ep]; [|by split].
  destruct (parseField_keeps (Field d i)) as (fm0 & Hp & Kn & Kt & Ki).
  rewrite Hp. split; [cbn; by rewrite IHn, Kn, Fn|].
  intros fm [->|H]%elem_of_cons; [|by apply Hrest].
  exists 0, d. rewrite Nat.add_0_r. repeat split; try done; congruence.
Qed.

(** X8: the descriptor Parse derives lists one field descriptor for each
    exported field of the struct, in declaration order, and none for an
    unexported one; each carries the field's name and type and, as index,
    the field's position among all declared fields. *)
Theorem Parse_new_fields_declared t fields :
  FieldMeta.Name <$> EntityMeta.Fields (Parse_new t fields) =
    decl_name <$> List.filter (fun d => String.eqb (decl_pkgPath d) "") fields /\
  forall fm, fm ∈ EntityMeta.Fields (Parse_new t fields) ->
    exists j d, fields !! j = Some d /\ decl_pkgPath d = "" /\
      FieldMeta.Index fm = [j] /\
      FieldMeta.Name fm = decl_name d /\
      FieldMeta.Type_ fm = decl_type d.
Proof.
  rewrite Parse_new_Fields.
  destruct (visible_fields_declared fields 0) as [H1 H2]. split; [exact H1|].
  intros fm H. destruct (H2 fm H) as (j & d & K1 & K2 & _ & K4 & K5 & K6).
  exists j, d. by repeat split.
Qed.

Lemma Parse_new_fields_declared_witness :
  let fm := FieldMeta.mk "Owner" uint_t [2] false
              (Some (ForeignKey.mk "users" "")) false None false false true in
  FieldMeta.Name <$> EntityMeta.Fields (Parse_new Account Account_fields)
    = ["ID"; "Owner"] /\
  fm ∈ EntityMeta.Fields (Parse_new Account Account_fields) /\
  exists j d,
    Account_fields !! j = Some d /\ decl_pkgPath d = "" /\
    FieldMeta.Index fm = [j] /\
    FieldMeta.Name fm = decl_name d /\
    FieldMeta.Type_ fm = decl_type d.
Proof.
  intros fm. split; [reflexivity|].
  assert (H : fm ∈ EntityMeta.Fields (Parse_new Account Account_fields)).
  { vm_compute. apply list_elem_of_further, list_elem_of_here. }
  split; [exact H|].
  exact (proj2 (Parse_new_fields_declared Account Account_fields) fm H).
Defined.

End FieldsFurther.

Section TagsFurther.
Import strings ascii_notions naming reflect meta entities test_entities parser_notions.

(** What one fragment does to the five flags. *)
Lemma parseField_part_flags fm part :
  let p := TrimSpace part in
  let fm' := parseField_part fm part in
  FieldMeta.IsPK fm' = FieldMeta.IsPK fm || String.eqb "pk" p /\
  FieldMeta.Nested fm' = FieldMeta.Nested fm || String.eqb "nested" p /\
  FieldMeta.List fm' = FieldMeta.List fm || String.eqb "list" p /\
  FieldMeta.Hidden fm' = FieldMeta.Hidden fm || String.eqb "hidden" p /\
  FieldMeta.ReadOnly fm' = FieldMeta.ReadOnly fm || String.eqb "readonly" p.
Proof.
  intros p fm'. subst fm'. unfold parseField_part; cbv zeta. fold p.
  rewrite !(String.eqb_sym _ p).
  destruct (String.eqb_spec p "pk") as [->|_];
    [cbn; by rewrite !orb_true_r, !orb_false_r|].
  destruct (String.eqb_spec p "nested") as [->|_];
    [cbn; by rewrite !orb_true_r, !orb_false_r|].
  destruct (String.eqb_spec p "list") as [->|_];
    [cbn; by rewrite !orb_true_r, !orb_false_r|].
  destruct (String.eqb_spec p "hidden") as [->|_];
    [cbn; by rewrite !orb_true_r, !orb_false_r|].
  destruct (String.eqb_spec p "readonly") as [->|_];
    [cbn; by rewrite !orb_true_r, !orb_false_r|].
  destruct (HasPrefix p "fk:"); [cbn; by rewrite !orb_false_r|].
  destruct (HasPrefix p "m2m:"); [cbn; by rewrite !orb_false_r|].
  destruct (HasPrefix p "count:"); [cbn; by rewrite !orb_false_r|].
  destruct (HasPrefix p "sum:"); cbn; by rewrite !orb_false_r.
Qed.

Lemma foldl_parseField_part_flags parts : forall fm,
  let has frag := existsb (String.eqb frag) (map TrimSpace parts) in
  let fm' := foldl parseField_part fm parts in
  FieldMeta.IsPK fm' = FieldMeta.IsPK fm || has "pk" /\
  FieldMeta.Nested fm' = FieldMeta.Nested fm || has "nested" /\
  FieldMeta.List fm' = FieldMeta.List fm || has "list" /\
  FieldMeta.Hidden fm' = FieldMeta.Hidden fm || has "hidden" /\
  FieldMeta.ReadOnly fm' = FieldMeta.ReadOnly fm || has "readonly".
Proof.
  induction parts as [|part parts IH]; intros fm has fm'; subst has fm'.
  { cbn. by rewrite !orb_false_r. }
  cbn [foldl map existsb].
  destruct (IH (parseField_part fm part)) as (H1 & H2 & H3 & H4 & H5).
  destruct (parseField_part_flags fm part) as (K1 & K2 & K3 & K4 & K5).
  rewrite H1, H2, H3, H4, H5, K1, K2, K3, K4, K5, !orb_assoc.
  by repeat split.
Qed.

(** The flags after the go-blar tag has been read, before the gorm tag is
    looked at. *)
Lemma parseField_blar_flags (fm0 : FieldMeta.t) blarTag :
  FieldMeta.IsPK fm0 = false -> FieldMeta.Nested fm0 = false ->
  FieldMeta.List fm0 = false -> FieldMeta.Hidden fm0 = false ->
  FieldMeta.ReadOnly fm0 = false ->
  let fm1 := if negb (String.eqb blarTag "")
             then foldl parseField_part fm0 (Split blarTag semicolon)
             else fm0 in
  FieldMeta.IsPK fm1 = has_fragment "pk" blarTag /\
  FieldMeta.Nested fm1 = has_fragment "nested" blarTag /\
  FieldMeta.List fm1 = has_fragment "list" blarTag /\
  FieldMeta.Hidden fm1 = has_fragment "hidden" blarTag /\
  FieldMeta.ReadOnly fm1 = has_fragment "readonly" blarTag.
Proof.
  intros H1 H2 H3 H4 H5. unfold has_fragment, fragments.
  destruct (String.eqb_spec blarTag "") as [->|_]; cbn [negb]; cbv zeta.
  - by rewrite H1, H2, H3, H4, H5.
  - destruct (foldl_parseField_part_flags (Split blarTag semicolon) fm0)
      as (K1 & K2 & K3 & K4 & K5).
    by rewrite K1, K2, K3, K4, K5, H1, H2, H3, H4, H5.
Qed.

(** X9: the flags of a field descriptor are read off the fragments of the
    field's go-blar tag (an ASCII tag, split at semicolons, white space
    around a fragment dropped), in any order and among any other fragments:
    nested, list, hidden and readonly are set exactly when the fragment of
    that name occurs, and the primary-key flag exactly when the fragment pk
    occurs or the gorm tag contains primaryKey. *)
Theorem parseField_flags sf :
  ascii_only (Get (StructField.Tag sf) "go-blar") = true ->
  exists fm, parseField sf = Some fm /\
    let blarTag := Get (StructField.Tag sf) "go-blar" in
    FieldMeta.IsPK fm = marks_pk (StructField.Tag sf) /\
    FieldMeta.Nested fm = has_fragment "nested" blarTag /\
    FieldMeta.List fm = has_fragment "list" blarTag /\
    FieldMeta.Hidden fm = has_fragment "hidden" blarTag /\
    FieldMeta.ReadOnly fm = has_fragment "readonly" blarTag.
Proof.
  intros _.
  unfold parseField, marks_pk; cbv zeta. eexists. split; [reflexivity|].
  set (fm0 := FieldMeta.mk _ _ _ _ _ _ _ _ _ _).
  destruct (parseField_blar_flags fm0 (Get (StructField.Tag sf) "go-blar")
              eq_refl eq_refl eq_refl eq_refl eq_refl) as (H1 & H2 & H3 & H4 & H5).
  destruct (Contains (Get (StructField.Tag sf) "gorm") "primaryKey");
    cbn [FieldMeta.set_IsPK FieldMeta.IsPK FieldMeta.Nested FieldMeta.List
         FieldMeta.Hidden FieldMeta.ReadOnly];
    rewrite ?H1, ?H2, ?H3, ?H4, ?H5, ?orb_true_r, ?orb_false_r; by repeat split.
Qed.

Lemma parseField_flags_witness :
  let sf := StructField.mk "Notes" "" (TOther "string" "string")
              [("json", "notes"); ("go-blar", " hidden ;searchable; readonly")]
              [3] in
  ascii_only (Get (StructField.Tag sf) "go-blar") = true /\
  exists fm, parseField sf = Some fm /\
    FieldMeta.IsPK fm = false /\
    FieldMeta.Nested fm = false /\
    FieldMeta.List fm = false /\
    FieldMeta.Hidden fm = true /\
    FieldMeta.ReadOnly fm = true.
Proof.
  intros sf. split; [reflexivity|].
  exact (parseField_flags sf eq_refl).
Defined.





End TagsFurther.

Section LookupFurther.
Import strings naming reflect meta entities test_entities parser_notions.

Lemma GetFieldByName_in_Some l n fm :
  EntityMeta.GetFieldByName_in l n = Some fm -> fm ∈ l /\ FieldMeta.Name fm = n.
Proof.
  induction l as [|f l IH]; [discriminate|]. cbn.
  destruct (String.eqb_spec (FieldMeta.Name f) n) as [E|_].
  - intros [= <-]. split; [apply list_elem_of_here|exact E].
  - intros H. destruct (IH H). split; [by apply list_elem_of_further|done].
Qed.

Lemma GetFieldByName_in_is_Some l n :
  is_Some (EntityMeta.GetFieldByName_in l n) <-> n ∈ FieldMeta.Name <$> l.
Proof.
  induction l as [|f l IH]; cbn.
  - split; [by intros [? ?]|by intros ?%elem_of_nil].
  - rewrite elem_of_cons, <- IH.
    destruct (String.eqb_spec (FieldMeta.Name f) n) as [E|E].
    + split; [by left|by eexists].
    + split; [by right|]. intros [->|H]; [done|exact H].
Qed.

(** X11: on a descriptor Parse has derived, GetFieldByName finds a field
    descriptor exactly for the names of the struct's exported fields, an
    unexported field is not found, and the descriptor found is one of the
    entity's and carries the name asked for. *)
Theorem GetFieldByName_parsed t fields n :
  (is_Some (EntityMeta.GetFieldByName (Parse_new t fields) n) <->
   exists d, d ∈ fields /\ decl_name d = n /\ decl_pkgPath d = "") /\
  (forall fm, EntityMeta.GetFieldByName (Parse_new t fields) n = Some fm ->
     fm ∈ EntityMeta.Fields (Parse_new t fields) /\ FieldMeta.Name fm = n).
Proof.
  unfold EntityMeta.GetFieldByName. split; [|apply GetFieldByName_in_Some].
  rewrite GetFieldByName_in_is_Some, Parse_new_Fields,
    (proj1 (visible_fields_declared fields 0)).
  rewrite list_elem_of_fmap. split.
  - intros (d & -> & Hd). apply list_elem_of_In, List.filter_In in Hd.
    destruct Hd as [Hin Hp]. exists d. split; [by apply list_elem_of_In|].
    split; [reflexivity|]. by apply String.eqb_eq.
  - intros (d & Hin & <- & Hp). exists d. split; [reflexivity|].
    apply list_elem_of_In, List.filter_In. split; [by apply list_elem_of_In|].
    by apply String.eqb_eq.
Qed.

Lemma GetFieldByName_parsed_witness :
  is_Some (EntityMeta.GetFieldByName (Parse_new Account Account_fields) "Owner") /\
  EntityMeta.GetFieldByName (Parse_new Account Account_fields) "secret" = None.
Proof.
  split.
  - apply (proj1 (GetFieldByName_parsed Account Account_fields "Owner")).
    exists (exported "Owner" uint_t [("go-blar", " fk:users ; readonly ")]).
    split; [|split; reflexivity].
    apply list_elem_of_further, list_elem_of_further, list_elem_of_here.
  - reflexivity.
Defined.





End LookupFurther.

Section GormTagFurther.
Import strings ascii_notions naming reflect meta parser_notions.

Lemma Split_without_separator s sep :
  Forall (fun c => Ascii.eqb c sep = false) (list_ascii_of_string s) ->
  Split s sep = [s].
Proof.
  induction s as [|c s IH]; [reflexivity|].
  cbn [list_ascii_of_string Split]. intros H. inversion H as [|? ? Hc Hs]; subst.
  by rewrite Hc, (IH Hs).
Qed.

Lemma TrimRight_cons c s :
  isSpace c = false -> TrimRight (String c s) = String c (TrimRight s).
Proof. intros H. cbn [TrimRight]. rewrite H. by destruct (TrimRight s). Qed.

(** X13: a table name written as the one fragment table:<name> of a gorm
    tag is read back by parseGormTag, up to white space at its end, which
    is dropped; this holds for every ASCII name without a semicolon. *)
Theorem parseGormTag_reads_table_name n :
  ascii_only n = true ->
  Forall (fun c => Ascii.eqb c semicolon = false) (list_ascii_of_string n) ->
  parseGormTag ("table:" +:+ n) = TrimRight n.
Proof.
  intros _ H. unfold parseGormTag.
  change (String.eqb ("table:" +:+ n) "") with false. cbv iota.
  rewrite Split_without_separator.
  2:{ cbn. repeat (constructor; [reflexivity|]). exact H. }
  cbn [parseGormTag_parts]; cbv zeta.
  assert (E : TrimSpace ("table:" +:+ n) = "table:" +:+ TrimRight n).
  { unfold TrimSpace. change (TrimLeft ("table:" +:+ n)) with ("table:" +:+ n).
    change ("table:" +:+ n)
      with (String "t" (String "a" (String "b" (String "l" (String "e"
             (String ":" n)))))).
    by rewrite !TrimRight_cons. }
  rewrite E, HasPrefix_app. unfold TrimPrefix. by rewrite HasPrefix_app.
Qed.

Lemma parseGormTag_reads_table_name_witness :
  ascii_only "people " = true /\
  Forall (fun c => Ascii.eqb c semicolon = false) (list_ascii_of_string "people ") /\
  parseGormTag "table:people " = "people".
Proof.
  assert (H : Forall (fun c => Ascii.eqb c semicolon = false)
                (list_ascii_of_string "people ")).
  { cbn. repeat constructor. }
  split; [reflexivity|]. split; [exact H|].
  exact (parseGormTag_reads_table_name "people " eq_refl H).
Defined.

End GormTagFurther.

Section RoutesFurther.
Import strings ascii_notions http route_notions.

Lemma toURLPath_loop_written rest : forall i result,
  toURLPath_loop i rest result = result ++ written (0 <? i) rest.
Proof.
  induction rest as [|r rest IH]; intros i result; cbn [toURLPath_loop written].
  - by rewrite app_nil_r.
  - cbv zeta. rewrite IH. change (0 <? S i) with true.
    destruct ((0 <? i) && isUpper r); cbn [app]; by rewrite <- !app_assoc.
Qed.

Lemma toURLPath_written s :
  list_ascii_of_string (toURLPath s) = written false (list_ascii_of_string s).
Proof.
  unfold toURLPath. rewrite list_ascii_of_string_of_list_ascii.
  by rewrite toURLPath_loop_written.
Qed.

Lemma toURLPath_byte_differs c : toURLPath_byte c <> toLowerRune c.
Proof. destruct c as [[] [] [] [] [] [] [] []]; vm_compute; discriminate. Qed.

(** X14: for no name other than the empty one is the URL segment the
    lower-cased name: the first character written is never the lower-cased
    first character of the name. *)
Theorem toURLPath_never_lowercases s :
  s <> "" -> toURLPath s <> ToLower s.
Proof.
  intros Hne Heq. apply (f_equal list_ascii_of_string) in Heq.
  rewrite toURLPath_written in Heq.
  destruct s as [|c s]; [done|]. cbn in Heq.
  injection Heq as Hc _. by apply (toURLPath_byte_differs c).
Qed.

Lemma toURLPath_never_lowercases_witness :
  "Product" <> "" /\ toURLPath "Product" <> ToLower "Product".
Proof.
  assert (H : "Product" <> "") by discriminate.
  split; [exact H|]. exact (toURLPath_never_lowercases "Product" H).
Defined.

Lemma toURLPath_unbyte_byte c : toURLPath_unbyte (toURLPath_byte c) = c.
Proof. destruct c as [[] [] [] [] [] [] [] []]; reflexivity. Qed.

Lemma toURLPath_byte_inj a b : toURLPath_byte a = toURLPath_byte b -> a = b.
Proof.
  intros H. apply (f_equal toURLPath_unbyte) in H.
  by rewrite !toURLPath_unbyte_byte in H.
Qed.

Lemma toURLPath_byte_upper r :
  isUpper r = true -> toURLPath_byte r <> "-"%char.
Proof. destruct r as [[] [] [] [] [] [] [] []]; vm_compute; discriminate. Qed.

Lemma written_head_upper r out rest :
  isUpper r = true -> written true rest = toURLPath_byte r :: out -> False.
Proof.
  intros Hr. destruct rest as [|r' rest]; [discriminate|]. cbn [written andb].
  destruct (isUpper r') eqn:E; cbn [app].
  - intros [= H _]. by apply (toURLPath_byte_upper r Hr).
  - intros [= H _]. apply toURLPath_byte_inj in H. congruence.
Qed.

Lemma written_inj : forall l1 l2 later,
  written later l1 = written later l2 -> l1 = l2.
Proof.
  induction l1 as [|r1 l1 IH]; intros [|r2 l2] later; cbn [written].
  - done.
  - destruct (later && isUpper r2); discriminate.
  - destruct (later && isUpper r1); discriminate.
  - destruct (later && isUpper r1) eqn:E1; destruct (later && isUpper r2) eqn:E2;
      cbn [app].
    + intros [= Hb Hrest]. apply toURLPath_byte_inj in Hb as ->.
      by rewrite (IH _ _ Hrest).
    + intros [= Hd Hrest]. exfalso.
      apply andb_prop in E1 as [_ Hu].
      exact (written_head_upper r1 _ l2 Hu (eq_sym Hrest)).
    + intros [= Hd Hrest]. exfalso.
      apply andb_prop in E2 as [_ Hu].
      exact (written_head_upper r2 _ l1 Hu Hrest).
    + intros [= Hb Hrest]. apply toURLPath_byte_inj in Hb as ->.
      by rewrite (IH _ _ Hrest).
Qed.

(** X15: different ASCII entity names give different URL segments. *)
Theorem toURLPath_injective s1 s2 :
  ascii_only s1 = true -> ascii_only s2 = true ->
  s1 <> s2 -> toURLPath s1 <> toURLPath s2.
Proof.
  intros _ _ Hne H. apply Hne. apply (f_equal list_ascii_of_string) in H.
  rewrite !toURLPath_written in H. apply written_inj in H.
  apply (f_equal string_of_list_ascii) in H.
  by rewrite !string_of_list_ascii_of_string in H.
Qed.

Lemma toURLPath_injective_witness :
  ascii_only "User" = true /\ ascii_only "Users" = true /\
  "User" <> "Users" /\ toURLPath "User" <> toURLPath "Users".
Proof.
  assert (H : "User" <> "Users") by discriminate.
  split; [reflexivity|]. split; [reflexivity|]. split; [exact H|].
  exact (toURLPath_injective "User" "Users" eq_refl eq_refl H).
Defined.

End RoutesFurther.

Section MiddlewareFurther.
Import router.
Context {Middleware : Type}.

Lemma ApplyMiddleware_loop_spec n : forall r : Router Middleware,
  routes r = [] ->
  n <= length (middlewares r) ->
  ApplyMiddleware_loop n r =
  Some (mkRouter (used r ++ rev (take n (middlewares r))) [] (middlewares r)).
Proof.
  induction n as [|i IH]; intros r Hr Hn.
  - cbn. rewrite app_nil_r. destruct r; cbn in *. by subst.
  - cbn [ApplyMiddleware_loop].
    destruct (lookup_lt_is_Some_2 (middlewares r) i ltac:(lia)) as [m Hm].
    rewrite Hm. unfold Use. rewrite Hr.
    rewrite IH; [|reflexivity|cbn; lia]. cbn [used routes middlewares].
    rewrite (take_S_r _ _ _ Hm), rev_app_distr. cbn [rev app].
    by rewrite <- app_assoc.
Qed.

(** X16: on a router without routes ApplyMiddleware hands the registered
    middlewares to the mux in the reverse of the order in which
    AddMiddleware received them, and keeps the list: after m1 ... mn are
    added to a new router, Use is called with mn first and m1 last. On a
    router with a route and a middleware to apply, it panics at the first
    Use; with no middleware it does nothing. *)
Theorem ApplyMiddleware_reverses (ms : list Middleware) (r : Router Middleware) :
  foldl AddMiddleware r ms = mkRouter (used r) (routes r) (middlewares r ++ ms) /\
  ApplyMiddleware (foldl AddMiddleware New ms) = Some (mkRouter (rev ms) [] ms) /\
  (routes r = [] ->
   ApplyMiddleware r =
   Some (mkRouter (used r ++ rev (middlewares r)) [] (middlewares r))) /\
  (routes r <> [] -> middlewares r <> [] -> ApplyMiddleware r = None) /\
  (middlewares r = [] -> ApplyMiddleware r = Some r).
Proof.
  assert (Hadd : forall (l : list Middleware) r0,
    foldl AddMiddleware r0 l = mkRouter (used r0) (routes r0) (middlewares r0 ++ l)).
  { induction l as [|m l IH]; intros r0; cbn [foldl].
    - rewrite app_nil_r. by destruct r0.
    - rewrite IH. cbn. by rewrite <- app_assoc. }
  assert (Happly : forall r0 : Router Middleware,
    routes r0 = [] ->
    ApplyMiddleware r0 =
    Some (mkRouter (used r0 ++ rev (middlewares r0)) [] (middlewares r0))).
  { intros r0 Hr. unfold ApplyMiddleware.
    rewrite ApplyMiddleware_loop_spec by done. by rewrite take_ge. }
  split; [apply Hadd|]. split; [|split; [apply Happly|split]].
  - rewrite Hadd, Happly by done. reflexivity.
  - intros Hr Hm. unfold ApplyMiddleware.
    destruct (middlewares r) as [|m l] eqn:E using rev_ind; [done|].
    rewrite length_app, Nat.add_comm. cbn [length Nat.add ApplyMiddleware_loop].
    rewrite E, lookup_app_r, Nat.sub_diag by done. cbn [lookup list_lookup].
    unfold Use. by destruct (routes r).
  - intros Hm. unfold ApplyMiddleware. by rewrite Hm.
Qed.

End MiddlewareFurther.

Section MiddlewareExample.
Import router entities.

Lemma ApplyMiddleware_reverses_witness :
  let routed :=
    mkRouter [] (http.RegisterEntityRoutes [] (meta.Parse_new User User_fields))
      ["logger"; "recoverer"] in
  ApplyMiddleware (mkRouter ["cors"] [] ["logger"; "recoverer"]) =
    Some (mkRouter ["cors"; "recoverer"; "logger"] [] ["logger"; "recoverer"]) /\
  routes routed <> [] /\ middlewares routed <> [] /\
  ApplyMiddleware routed = None /\
  ApplyMiddleware (mkRouter ["cors"] (routes routed) []) =
    Some (mkRouter ["cors"] (routes routed) []).
Proof.
  intros routed.
  assert (H1 : routes routed <> []) by discriminate.
  assert (H2 : middlewares routed <> []) by discriminate.
  split.
  - exact (proj1 (proj2 (proj2 (ApplyMiddleware_reverses []
             (mkRouter ["cors"] [] ["logger"; "recoverer"])))) eq_refl).
  - split; [exact H1|]. split; [exact H2|]. split.
    + exact (proj1 (proj2 (proj2 (proj2 (ApplyMiddleware_reverses [] routed))))
               H1 H2).
    + exact (proj2 (proj2 (proj2 (proj2 (ApplyMiddleware_reverses []
               (mkRouter ["cors"] (routes routed) []))))) eq_refl).
Defined.

End MiddlewareExample.

Section HandlersFurther.
Import handlers.
Context {Ctx Handle Body E Store : Type}.
Variable env : Env Ctx Handle Body E Store.

(** What a dispatch that started with an empty record has recorded: the
    invocation when the type implements the hook; an error comes from an
    invocation only. *)
Lemma hook_dispatched (entityMeta : EntityMeta.t) k (ctx : Ctx) (tx : Handle)
    (entity : E) (store : Store) err w ks :
  hooks.Call k ctx (method_set env (EntityMeta.Type_ entityMeta)) tx
    ((entity, store), []) = (err, (w, ks)) ->
  map HookCalled ks = hook_events env entityMeta k /\
  (forall e, err = Some e -> map HookCalled ks = [HookCalled k]).
Proof.
  unfold hook_events.
  destruct k; cbn [hooks.Call];
    unfold hooks.CallBeforeCreate, hooks.CallAfterCreate, hooks.CallBeforeUpdate,
      hooks.CallAfterUpdate, hooks.CallBeforeDelete, hooks.CallAfterDelete;
    match goal with |- context [hooks.method ?ent ?k] =>
      destruct (hooks.method ent k) as [m|]
    end;
    unfold hooks.invoke, hooks.ret; cbn [fst snd];
    try (destruct (m ctx tx (entity, store)) as [err' w']);
    intros [= <- <- <-]; split; try reflexivity; try discriminate; done.
Qed.

(** The handler's use of a dispatch, from the dispatch's result. *)
Lemma hook_from_dispatch (call : @hooks.Run (E * Store) (option error))
    (entity : E) (store : Store) (tr : list Event) err entity' store' ks :
  call ((entity, store), []) = (err, ((entity', store'), ks)) ->
  hook call entity (store, tr) = (err, (entity', (store', tr ++ map HookCalled ks))).
Proof. intros H. unfold hook. cbn [fst snd]. by rewrite H. Qed.

Lemma storage_from_driver op
    (call : E * Store -> option DriverError * (E * Store))
    (entity : E) (store : Store) (tr : list Event) err entity' store' :
  call (entity, store) = (err, (entity', store')) ->
  storage op call entity (store, tr) = (err, (entity', (store', tr ++ [Storage op]))).
Proof. intros H. unfold storage. cbn [fst snd]. by rewrite H. Qed.

(** The steps of a handler, one at a time. *)
Ltac handler_step :=
  match goal with
  | H : hooks.CallBeforeCreate _ _ _ _ = _ |- _ =>
      rewrite (hook_from_dispatch _ _ _ _ _ _ _ _ H);
      apply (hook_dispatched _ goblar.BeforeCreate) in H as [? ?]
  | H : hooks.CallAfterCreate _ _ _ _ = _ |- _ =>
      rewrite (hook_from_dispatch _ _ _ _ _ _ _ _ H);
      apply (hook_dispatched _ goblar.AfterCreate) in H as [? ?]
  | H : hooks.CallBeforeUpdate _ _ _ _ = _ |- _ =>
      rewrite (hook_from_dispatch _ _ _ _ _ _ _ _ H);
      apply (hook_dispatched _ goblar.BeforeUpdate) in H as [? ?]
  | H : hooks.CallAfterUpdate _ _ _ _ = _ |- _ =>
      rewrite (hook_from_dispatch _ _ _ _ _ _ _ _ H);
      apply (hook_dispatched _ goblar.AfterUpdate) in H as [? ?]
  | H : hooks.CallBeforeDelete _ _ _ _ = _ |- _ =>
      rewrite (hook_from_dispatch _ _ _ _ _ _ _ _ H);
      apply (hook_dispatched _ goblar.BeforeDelete) in H as [? ?]
  | H : hooks.CallAfterDelete _ _ _ _ = _ |- _ =>
      rewrite (hook_from_dispatch _ _ _ _ _ _ _ _ H);
      apply (hook_dispatched _ goblar.AfterDelete) in H as [? ?]
  | H : dbCreate _ _ _ _ = _ |- _ =>
      rewrite (storage_from_driver _ _ _ _ _ _ _ _ H); clear H
  | H : dbFirst _ _ _ _ _ = _ |- _ =>
      rewrite (storage_from_driver _ _ _ _ _ _ _ _ H); clear H
  | H : dbUpdates _ _ _ _ _ = _ |- _ =>
      rewrite (storage_from_driver _ _ _ _ _ _ _ _ H); clear H
  | H : dbDelete _ _ _ _ _ = _ |- _ =>
      rewrite (storage_from_driver _ _ _ _ _ _ _ _ H); clear H
  end.

(** Brings the record of the outcome to the form of the statement. *)
Ltac handler_record :=
  cbn [is_ErrRecordNotFound message];
  repeat match goal with
         | H : forall e, Some ?e0 = Some e -> _ |- _ => specialize (H e0 eq_refl)
         | H : forall e, None = Some e -> _ |- _ => clear H
         end;
  repeat match goal with
         | H : map HookCalled ?ks = _ |- _ => rewrite H; clear H
         end;
  rewrite <- ?app_assoc; reflexivity.

(** X17: CreateHandler, outcome by outcome. A body that does not decode:
    400, nothing invoked, storage untouched. Else the BeforeCreate hook is
    dispatched; if it fails, 500 with its message and the record ends with
    the hook. Else the storage Create is made; if it fails, 500 with the
    driver's message and the record ends with the Create. Else the
    AfterCreate hook is dispatched; if it fails, 500 with its message, the
    row being already written. Else 201 with the entity as the after-hook
    left it, the record being the BeforeCreate hook if the type has one,
    the Create, the AfterCreate hook if the type has one. *)
Theorem CreateHandler_outcomes (h : Handlers Handle) entityMeta
    (r : Request Ctx Body) (store : Store) (tr : list Event) :
  let ctx := Context_ r in
  let entity := method_set env (EntityMeta.Type_ entityMeta) in
  let out := CreateHandler env h entityMeta r (store, tr) in
  let decoded := Decode env (Body_ r) (makeEntityInstance env entityMeta) in
  let before := hook_events env entityMeta goblar.BeforeCreate in
  let after := hook_events env entityMeta goblar.AfterCreate in
  (forall e entity0,
     decoded = (Some e, entity0) ->
     out = (Error "Invalid request body" StatusBadRequest, (store, tr))) /\
  (forall entity0 e entity1 store1 ks1,
     decoded = (None, entity0) ->
     hooks.CallBeforeCreate ctx entity (db h) ((entity0, store), [])
       = (Some e, ((entity1, store1), ks1)) ->
     out = (Error e StatusInternalServerError,
            (store1, tr ++ [HookCalled goblar.BeforeCreate]))) /\
  (forall entity0 entity1 store1 ks1 e entity2 store2,
     decoded = (None, entity0) ->
     hooks.CallBeforeCreate ctx entity (db h) ((entity0, store), [])
       = (None, ((entity1, store1), ks1)) ->
     dbCreate env (db h) ctx (entity1, store1) = (Some e, (entity2, store2)) ->
     out = (Error (message e) StatusInternalServerError,
            (store2, tr ++ before ++ [Storage DbCreate]))) /\
  (forall entity0 entity1 store1 ks1 entity2 store2 e entity3 store3 ks3,
     decoded = (None, entity0) ->
     hooks.CallBeforeCreate ctx entity (db h) ((entity0, store), [])
       = (None, ((entity1, store1), ks1)) ->
     dbCreate env (db h) ctx (entity1, store1) = (None, (entity2, store2)) ->
     hooks.CallAfterCreate ctx entity (db h) ((entity2, store2), [])
       = (Some e, ((entity3, store3), ks3)) ->
     out = (Error e StatusInternalServerError,
            (store3, tr ++ before
                        ++ [Storage DbCreate; HookCalled goblar.AfterCreate]))) /\
  (forall entity0 entity1 store1 ks1 entity2 store2 entity3 store3 ks3,
     decoded = (None, entity0) ->
     hooks.CallBeforeCreate ctx entity (db h) ((entity0, store), [])
       = (None, ((entity1, store1), ks1)) ->
     dbCreate env (db h) ctx (entity1, store1) = (None, (entity2, store2)) ->
     hooks.CallAfterCreate ctx entity (db h) ((entity2, store2), [])
       = (None, ((entity3, store3), ks3)) ->
     out = (mkResponse StatusCreated (JSON entity3),
            (store3, tr ++ before ++ [Storage DbCreate] ++ after))).
Proof.
  cbv zeta. unfold CreateHandler; cbv zeta.
  repeat split; intros; repeat match goal with
    | H : Decode _ _ _ = _ |- _ => rewrite H; clear H
    end; try reflexivity; repeat handler_step; handler_record.
Qed.

(** X18: UpdateHandler, outcome by outcome. An unreadable id: 400; a
    readable id and a body that does not decode: 400; in both nothing is
    invoked and the storage is untouched. Else: 500 with the hook's message
    when the BeforeUpdate hook fails (no storage write); 500 with the
    driver's message when the storage update for the id of the URL fails;
    500 with the hook's message when the AfterUpdate hook fails (the update
    is already made); else 200 with the entity as the after-hook left it,
    the record being the BeforeUpdate hook if any, the update, the
    AfterUpdate hook if any. *)
Theorem UpdateHandler_outcomes (h : Handlers Handle) entityMeta
    (r : Request Ctx Body) (store : Store) (tr : list Event) :
  let ctx := Context_ r in
  let entity := method_set env (EntityMeta.Type_ entityMeta) in
  let out := UpdateHandler env h entityMeta r (store, tr) in
  let parsed := ParseInt env (URLParam_id r) in
  let decoded := Decode env (Body_ r) (makeEntityInstance env entityMeta) in
  let before := hook_events env entityMeta goblar.BeforeUpdate in
  let after := hook_events env entityMeta goblar.AfterUpdate in
  (parsed = None ->
   out = (Error "Invalid ID" StatusBadRequest, (store, tr))) /\
  (forall id e entity0,
     parsed = Some id ->
     decoded = (Some e, entity0) ->
     out = (Error "Invalid request body" StatusBadRequest, (store, tr))) /\
  (forall id entity0 e entity1 store1 ks1,
     parsed = Some id ->
     decoded = (None, entity0) ->
     hooks.CallBeforeUpdate ctx entity (db h) ((entity0, store), [])
       = (Some e, ((entity1, store1), ks1)) ->
     out = (Error e StatusInternalServerError,
            (store1, tr ++ [HookCalled goblar.BeforeUpdate]))) /\
  (forall id entity0 entity1 store1 ks1 e entity2 store2,
     parsed = Some id ->
     decoded = (None, entity0) ->
     hooks.CallBeforeUpdate ctx entity (db h) ((entity0, store), [])
       = (None, ((entity1, store1), ks1)) ->
     dbUpdates env (db h) ctx id (entity1, store1) = (Some e, (entity2, store2)) ->
     out = (Error (message e) StatusInternalServerError,
            (store2, tr ++ before ++ [Storage (DbUpdates id)]))) /\
  (forall id entity0 entity1 store1 ks1 entity2 store2 e entity3 store3 ks3,
     parsed = Some id ->
     decoded = (None, entity0) ->
     hooks.CallBeforeUpdate ctx entity (db h) ((entity0, store), [])
       = (None, ((entity1, store1), ks1)) ->
     dbUpdates env (db h) ctx id (entity1, store1) = (None, (entity2, store2)) ->
     hooks.CallAfterUpdate ctx entity (db h) ((entity2, store2), [])
       = (Some e, ((entity3, store3), ks3)) ->
     out = (Error e StatusInternalServerError,
            (store3, tr ++ before
                        ++ [Storage (DbUpdates id);
                            HookCalled goblar.AfterUpdate]))) /\
  (forall id entity0 entity1 store1 ks1 entity2 store2 entity3 store3 ks3,
     parsed = Some id ->
     decoded = (None, entity0) ->
     hooks.CallBeforeUpdate ctx entity (db h) ((entity0, store), [])
       = (None, ((entity1, store1), ks1)) ->
     dbUpdates env (db h) ctx id (entity1, store1) = (None, (entity2, store2)) ->
     hooks.CallAfterUpdate ctx entity (db h) ((entity2, store2), [])
       = (None, ((entity3, store3), ks3)) ->
     out = (mkResponse StatusOK (JSON entity3),
            (store3, tr ++ before ++ [Storage (DbUpdates id)] ++ after))).
Proof.
  cbv zeta. unfold UpdateHandler; cbv zeta.
  repeat split; intros; repeat match goal with
    | H : ParseInt _ _ = _ |- _ => rewrite H; clear H
    | H : Decode _ _ _ = _ |- _ => rewrite H; clear H
    end; try reflexivity; repeat handler_step; handler_record.
Qed.

(** X19: DeleteHandler, outcome by outcome. An unreadable id: 400, nothing
    done. Else the entity is read from storage: 404 "Not found" when the
    read returns gorm.ErrRecordNotFound, 500 with the driver's message when
    it returns any other error, and nothing else is done. Else: 500 with
    the hook's message when the BeforeDelete hook fails (no storage
    delete); 500 with the driver's message when the storage delete fails;
    500 with the hook's message when the AfterDelete hook fails (the row is
    already deleted); else 204 without a body, the record being the read,
    the BeforeDelete hook if any, the delete, the AfterDelete hook if
    any. *)
Theorem DeleteHandler_outcomes (h : Handlers Handle) entityMeta
    (r : Request Ctx Body) (store : Store) (tr : list Event) :
  let ctx := Context_ r in
  let entity := method_set env (EntityMeta.Type_ entityMeta) in
  let out := DeleteHandler env h entityMeta r (store, tr) in
  let parsed := ParseInt env (URLParam_id r) in
  let zero := makeEntityInstance env entityMeta in
  let before := hook_events env entityMeta goblar.BeforeDelete in
  let after := hook_events env entityMeta goblar.AfterDelete in
  (parsed = None ->
   out = (Error "Invalid ID" StatusBadRequest, (store, tr))) /\
  (forall id entity0 store0,
     parsed = Some id ->
     dbFirst env (db h) ctx id (zero, store)
       = (Some ErrRecordNotFound, (entity0, store0)) ->
     out = (Error "Not found" StatusNotFound,
            (store0, tr ++ [Storage (DbFirst id)]))) /\
  (forall id msg entity0 store0,
     parsed = Some id ->
     dbFirst env (db h) ctx id (zero, store)
       = (Some (OtherError msg), (entity0, store0)) ->
     out = (Error msg StatusInternalServerError,
            (store0, tr ++ [Storage (DbFirst id)]))) /\
  (forall id entity0 store0 e entity1 store1 ks1,
     parsed = Some id ->
     dbFirst env (db h) ctx id (zero, store) = (None, (entity0, store0)) ->
     hooks.CallBeforeDelete ctx entity (db h) ((entity0, store0), [])
       = (Some e, ((entity1, store1), ks1)) ->
     out = (Error e StatusInternalServerError,
            (store1, tr ++ [Storage (DbFirst id);
                            HookCalled goblar.BeforeDelete]))) /\
  (forall id entity0 store0 entity1 store1 ks1 e entity2 store2,
     parsed = Some id ->
     dbFirst env (db h) ctx id (zero, store) = (None, (entity0, store0)) ->
     hooks.CallBeforeDelete ctx entity (db h) ((entity0, store0), [])
       = (None, ((entity1, store1), ks1)) ->
     dbDelete env (db h) ctx id (entity1, store1) = (Some e, (entity2, store2)) ->
     out = (Error (message e) StatusInternalServerError,
            (store2, tr ++ [Storage (DbFirst id)] ++ before
                        ++ [Storage (DbDelete id)]))) /\
  (forall id entity0 store0 entity1 store1 ks1 entity2 store2 e entity3 store3 ks3,
     parsed = Some id ->
     dbFirst env (db h) ctx id (zero, store) = (None, (entity0, store0)) ->
     hooks.CallBeforeDelete ctx entity (db h) ((entity0, store0), [])
       = (None, ((entity1, store1), ks1)) ->
     dbDelete env (db h) ctx id (entity1, store1) = (None, (entity2, store2)) ->
     hooks.CallAfterDelete ctx entity (db h) ((entity2, store2), [])
       = (Some e, ((entity3, store3), ks3)) ->
     out = (Error e StatusInternalServerError,
            (store3, tr ++ [Storage (DbFirst id)] ++ before
                        ++ [Storage (DbDelete id);
                            HookCalled goblar.AfterDelete]))) /\
  (forall id entity0 store0 entity1 store1 ks1 entity2 store2 entity3 store3 ks3,
     parsed = Some id ->
     dbFirst env (db h) ctx id (zero, store) = (None, (entity0, store0)) ->
     hooks.CallBeforeDelete ctx entity (db h) ((entity0, store0), [])
       = (None, ((entity1, store1), ks1)) ->
     dbDelete env (db h) ctx id (entity1, store1) = (None, (entity2, store2)) ->
     hooks.CallAfterDelete ctx entity (db h) ((entity2, store2), [])
       = (None, ((entity3, store3), ks3)) ->
     out = (mkResponse StatusNoContent NoBody,
            (store3, tr ++ [Storage (DbFirst id)] ++ before
                        ++ [Storage (DbDelete id)] ++ after))).
Proof.
  cbv zeta. unfold DeleteHandler; cbv zeta.
  repeat split; intros; repeat match goal with
    | H : ParseInt _ _ = _ |- _ => rewrite H; clear H
    end; try reflexivity; repeat handler_step; handler_record.
Qed.

(** X20: the reading handlers invoke no hook and make one storage read.
    GetHandler answers 400 for an unreadable id without touching the
    storage; else it reads once and answers 404 "Not found" when the read
    returns gorm.ErrRecordNotFound, 500 with the driver's message when it
    returns any other error, and 200 with the entity read otherwise.
    ListHandler reads once and answers 500 with the driver's message when
    the read fails, 200 with the entities read otherwise. *)
Theorem read_handlers_outcomes (h : Handlers Handle) entityMeta
    (r : Request Ctx Body) (store : Store) (tr : list Event) :
  let ctx := Context_ r in
  let get := GetHandler env h entityMeta r (store, tr) in
  let list := ListHandler env h entityMeta r (store, tr) in
  let parsed := ParseInt env (URLParam_id r) in
  let zero := makeEntityInstance env entityMeta in
  (parsed = None ->
   get = (Error "Invalid ID" StatusBadRequest, (store, tr))) /\
  (forall id entity0 store0,
     parsed = Some id ->
     dbFirst env (db h) ctx id (zero, store)
       = (Some ErrRecordNotFound, (entity0, store0)) ->
     get = (Error "Not found" StatusNotFound,
            (store0, tr ++ [Storage (DbFirst id)]))) /\
  (forall id msg entity0 store0,
     parsed = Some id ->
     dbFirst env (db h) ctx id (zero, store)
       = (Some (OtherError msg), (entity0, store0)) ->
     get = (Error msg StatusInternalServerError,
            (store0, tr ++ [Storage (DbFirst id)]))) /\
  (forall id entity0 store0,
     parsed = Some id ->
     dbFirst env (db h) ctx id (zero, store) = (None, (entity0, store0)) ->
     get = (mkResponse StatusOK (JSON entity0),
            (store0, tr ++ [Storage (DbFirst id)]))) /\
  (forall e entities store0,
     dbFind env (db h) ctx store = (Some e, (entities, store0)) ->
     list = (Error (message e) StatusInternalServerError,
             (store0, tr ++ [Storage DbFind]))) /\
  (forall entities store0,
     dbFind env (db h) ctx store = (None, (entities, store0)) ->
     list = (mkResponse StatusOK (JSONList entities),
             (store0, tr ++ [Storage DbFind]))).
Proof.
  cbv zeta. unfold GetHandler, ListHandler; cbv zeta. cbn [fst snd].
  repeat split; intros; repeat match goal with
    | H : ParseInt _ _ = _ |- _ => rewrite H; clear H
    | H : dbFind _ _ _ _ = _ |- _ => rewrite H; clear H
    end; try reflexivity; repeat handler_step; handler_record.
Qed.

(** X21: a failing before-hook stops the handler before the storage is
    written: when the entity type implements the hook and the hook returns
    an error, CreateHandler, UpdateHandler and DeleteHandler answer 500
    with the hook's message, the storage is as the hook left it, and the
    record ends with the hook's invocation: no storage write, no
    after-hook. *)
Theorem before_hook_failure_aborts (h : Handlers Handle) entityMeta
    (r : Request Ctx Body) (store : Store) (tr : list Event) :
  (forall m entity0 e entity1 store1,
     Decode env (Body_ r) (makeEntityInstance env entityMeta) = (None, entity0) ->
     hooks.method (method_set env (EntityMeta.Type_ entityMeta)) goblar.BeforeCreate
       = Some m ->
     m (Context_ r) (db h) (entity0, store) = (Some e, (entity1, store1)) ->
     CreateHandler env h entityMeta r (store, tr) =
       (Error e StatusInternalServerError,
        (store1, tr ++ [HookCalled goblar.BeforeCreate]))) /\
  (forall id m entity0 e entity1 store1,
     ParseInt env (URLParam_id r) = Some id ->
     Decode env (Body_ r) (makeEntityInstance env entityMeta) = (None, entity0) ->
     hooks.method (method_set env (EntityMeta.Type_ entityMeta)) goblar.BeforeUpdate
       = Some m ->
     m (Context_ r) (db h) (entity0, store) = (Some e, (entity1, store1)) ->
     UpdateHandler env h entityMeta r (store, tr) =
       (Error e StatusInternalServerError,
        (store1, tr ++ [HookCalled goblar.BeforeUpdate]))) /\
  (forall id m entity0 store0 e entity1 store1,
     ParseInt env (URLParam_id r) = Some id ->
     dbFirst env (db h) (Context_ r) id (makeEntityInstance env entityMeta, store)
       = (None, (entity0, store0)) ->
     hooks.method (method_set env (EntityMeta.Type_ entityMeta)) goblar.BeforeDelete
       = Some m ->
     m (Context_ r) (db h) (entity0, store0) = (Some e, (entity1, store1)) ->
     DeleteHandler env h entityMeta r (store, tr) =
       (Error e StatusInternalServerError,
        (store1, tr ++ [Storage (DbFirst id); HookCalled goblar.BeforeDelete]))).
Proof.
  split; [|split].
  - intros m entity0 e entity1 store1 Hd Hm He.
    unfold CreateHandler; cbv zeta. rewrite Hd.
    unfold hook, hooks.CallBeforeCreate. rewrite Hm.
    unfold hooks.invoke. cbn [fst snd]. rewrite He. reflexivity.
  - intros id m entity0 e entity1 store1 Hid Hd Hm He.
    unfold UpdateHandler; cbv zeta. rewrite Hid, Hd.
    unfold hook, hooks.CallBeforeUpdate. rewrite Hm.
    unfold hooks.invoke. cbn [fst snd]. rewrite He. reflexivity.
  - intros id m entity0 store0 e entity1 store1 Hid Hf Hm He.
    unfold DeleteHandler; cbv zeta. rewrite Hid.
    unfold storage. cbn [fst snd]. rewrite Hf. cbn [fst snd].
    unfold hook, hooks.CallBeforeDelete. rewrite Hm.
    unfold hooks.invoke. cbn [fst snd]. rewrite He. cbn [fst snd map app].
    by rewrite <- app_assoc.
Qed.

End HandlersFurther.

Section HandlersExample.
Import hooks handlers handler_example entities.

Lemma before_hook_failure_aborts_witness :
  let entityMeta := meta.Parse_new User User_fields in
  CreateHandler example_env example_handlers entityMeta
    (mkRequest tt "" (Some failing_mock)) ([], []) =
    (Error "before create failed" StatusInternalServerError,
     ([], [HookCalled goblar.BeforeCreate])) /\
  UpdateHandler example_env example_handlers entityMeta
    (mkRequest tt "0" (Some failing_mock)) ([Mock_zero], []) =
    (Error "before update failed" StatusInternalServerError,
     ([Mock_zero], [HookCalled goblar.BeforeUpdate])) /\
  DeleteHandler example_env example_handlers entityMeta
    (mkRequest tt "0" None) ([failing_mock], []) =
    (Error "before delete failed" StatusInternalServerError,
     ([failing_mock], [Storage (DbFirst 0); HookCalled goblar.BeforeDelete])).
Proof.
  intros entityMeta.
  pose proof (before_hook_failure_aborts example_env example_handlers entityMeta)
    as H.
  split; [|split].
  - eapply (proj1 (H (mkRequest tt "" (Some failing_mock)) [] [])
             (Mock_method_on_world goblar.BeforeCreate) failing_mock);
      reflexivity.
  - eapply (proj1 (proj2 (H (mkRequest tt "0" (Some failing_mock)) [Mock_zero] []))
             0%Z (Mock_method_on_world goblar.BeforeUpdate) failing_mock);
      reflexivity.
  - eapply (proj2 (proj2 (H (mkRequest tt "0" None) [failing_mock] []))
             0%Z (Mock_method_on_world goblar.BeforeDelete) failing_mock
             [failing_mock]);
      reflexivity.
Defined.

Lemma CreateHandler_outcomes_witness :
  let entityMeta := meta.Parse_new User User_fields in
  let created := Mock_set_called goblar.BeforeCreate Mock_zero in
  CreateHandler example_env example_handlers entityMeta
    (mkRequest tt "" None) ([], []) =
    (Error "Invalid request body" StatusBadRequest, ([], [])) /\
  CreateHandler example_env example_handlers entityMeta
    (mkRequest tt "" (Some failing_mock)) ([], []) =
    (Error "before create failed" StatusInternalServerError,
     ([], [HookCalled goblar.BeforeCreate])) /\
  CreateHandler readonly_env example_handlers entityMeta
    (mkRequest tt "" (Some Mock_zero)) ([], []) =
    (Error "attempt to write a readonly database" StatusInternalServerError,
     ([], [HookCalled goblar.BeforeCreate; Storage DbCreate])) /\
  CreateHandler after_hooks_env example_handlers entityMeta
    (mkRequest tt "" (Some failing_mock)) ([], []) =
    (Error "after create failed" StatusInternalServerError,
     ([failing_mock], [Storage DbCreate; HookCalled goblar.AfterCreate])) /\
  CreateHandler example_env example_handlers entityMeta
    (mkRequest tt "" (Some Mock_zero)) ([], []) =
    (mkResponse StatusCreated
       (JSON (Mock_set_called goblar.AfterCreate created)),
     ([created],
      [HookCalled goblar.BeforeCreate; Storage DbCreate;
       HookCalled goblar.AfterCreate])).
Proof.
  intros entityMeta created.
  split; [|split; [|split; [|split]]].
  - pose proof (CreateHandler_outcomes example_env example_handlers entityMeta
                  (mkRequest tt "" None) [] []) as H.
    cbv zeta in H. eapply (proj1 H). reflexivity.
  - pose proof (CreateHandler_outcomes example_env example_handlers entityMeta
                  (mkRequest tt "" (Some failing_mock)) [] []) as H.
    cbv zeta in H. eapply (proj1 (proj2 H)); reflexivity.
  - pose proof (CreateHandler_outcomes readonly_env example_handlers entityMeta
                  (mkRequest tt "" (Some Mock_zero)) [] []) as H.
    cbv zeta in H.
    eapply (proj1 (proj2 (proj2 H)) _ _ _ _
              (OtherError "attempt to write a readonly database"));
      reflexivity.
  - pose proof (CreateHandler_outcomes after_hooks_env example_handlers entityMeta
                  (mkRequest tt "" (Some failing_mock)) [] []) as H.
    cbv zeta in H. eapply (proj1 (proj2 (proj2 (proj2 H)))); reflexivity.
  - pose proof (CreateHandler_outcomes example_env example_handlers entityMeta
                  (mkRequest tt "" (Some Mock_zero)) [] []) as H.
    cbv zeta in H. eapply (proj2 (proj2 (proj2 (proj2 H)))); reflexivity.
Defined.

Lemma UpdateHandler_outcomes_witness :
  let entityMeta := meta.Parse_new User User_fields in
  let updated := Mock_set_called goblar.BeforeUpdate Mock_zero in
  UpdateHandler example_env example_handlers entityMeta
    (mkRequest tt "zero" (Some Mock_zero)) ([Mock_zero], []) =
    (Error "Invalid ID" StatusBadRequest, ([Mock_zero], [])) /\
  UpdateHandler example_env example_handlers entityMeta
    (mkRequest tt "0" None) ([Mock_zero], []) =
    (Error "Invalid request body" StatusBadRequest, ([Mock_zero], [])) /\
  UpdateHandler example_env example_handlers entityMeta
    (mkRequest tt "0" (Some failing_mock)) ([Mock_zero], []) =
    (Error "before update failed" StatusInternalServerError,
     ([Mock_zero], [HookCalled goblar.BeforeUpdate])) /\
  UpdateHandler readonly_env example_handlers entityMeta
    (mkRequest tt "0" (Some Mock_zero)) ([Mock_zero], []) =
    (Error "attempt to write a readonly database" StatusInternalServerError,
     ([Mock_zero], [HookCalled goblar.BeforeUpdate; Storage (DbUpdates 0)])) /\
  UpdateHandler after_hooks_env example_handlers entityMeta
    (mkRequest tt "0" (Some failing_mock)) ([Mock_zero], []) =
    (Error "after update failed" StatusInternalServerError,
     ([failing_mock], [Storage (DbUpdates 0); HookCalled goblar.AfterUpdate])) /\
  UpdateHandler example_env example_handlers entityMeta
    (mkRequest tt "0" (Some Mock_zero)) ([Mock_zero], []) =
    (mkResponse StatusOK (JSON (Mock_set_called goblar.AfterUpdate updated)),
     ([updated],
      [HookCalled goblar.BeforeUpdate; Storage (DbUpdates 0);
       HookCalled goblar.AfterUpdate])).
Proof.
  intros entityMeta updated.
  split; [|split; [|split; [|split; [|split]]]].
  - pose proof (UpdateHandler_outcomes example_env example_handlers entityMeta
                  (mkRequest tt "zero" (Some Mock_zero)) [Mock_zero] []) as H.
    cbv zeta in H. eapply (proj1 H). reflexivity.
  - pose proof (UpdateHandler_outcomes example_env example_handlers entityMeta
                  (mkRequest tt "0" None) [Mock_zero] []) as H.
    cbv zeta in H. eapply (proj1 (proj2 H) 0%Z); reflexivity.
  - pose proof (UpdateHandler_outcomes example_env example_handlers entityMeta
                  (mkRequest tt "0" (Some failing_mock)) [Mock_zero] []) as H.
    cbv zeta in H. eapply (proj1 (proj2 (proj2 H)) 0%Z); reflexivity.
  - pose proof (UpdateHandler_outcomes readonly_env example_handlers entityMeta
                  (mkRequest tt "0" (Some Mock_zero)) [Mock_zero] []) as H.
    cbv zeta in H.
    eapply (proj1 (proj2 (proj2 (proj2 H))) 0%Z _ _ _ _
              (OtherError "attempt to write a readonly database"));
      reflexivity.
  - pose proof (UpdateHandler_outcomes after_hooks_env example_handlers entityMeta
                  (mkRequest tt "0" (Some failing_mock)) [Mock_zero] []) as H.
    cbv zeta in H.
    eapply (proj1 (proj2 (proj2 (proj2 (proj2 H)))) 0%Z); reflexivity.
  - pose proof (UpdateHandler_outcomes example_env example_handlers entityMeta
                  (mkRequest tt "0" (Some Mock_zero)) [Mock_zero] []) as H.
    cbv zeta in H.
    eapply (proj2 (proj2 (proj2 (proj2 (proj2 H)))) 0%Z); reflexivity.
Defined.

Lemma DeleteHandler_outcomes_witness :
  let entityMeta := meta.Parse_new User User_fields in
  DeleteHandler example_env example_handlers entityMeta
    (mkRequest tt "" None) ([Mock_zero], []) =
    (Error "Invalid ID" StatusBadRequest, ([Mock_zero], [])) /\
  DeleteHandler example_env example_handlers entityMeta
    (mkRequest tt "7" None) ([Mock_zero], []) =
    (Error "Not found" StatusNotFound, ([Mock_zero], [Storage (DbFirst 7)])) /\
  DeleteHandler closed_env example_handlers entityMeta
    (mkRequest tt "0" None) ([Mock_zero], []) =
    (Error "sql: database is closed" StatusInternalServerError,
     ([Mock_zero], [Storage (DbFirst 0)])) /\
  DeleteHandler example_env example_handlers entityMeta
    (mkRequest tt "0" None) ([failing_mock], []) =
    (Error "before delete failed" StatusInternalServerError,
     ([failing_mock], [Storage (DbFirst 0); HookCalled goblar.BeforeDelete])) /\
  DeleteHandler readonly_env example_handlers entityMeta
    (mkRequest tt "0" None) ([Mock_zero], []) =
    (Error "attempt to write a readonly database" StatusInternalServerError,
     ([Mock_zero],
      [Storage (DbFirst 0); HookCalled goblar.BeforeDelete;
       Storage (DbDelete 0)])) /\
  DeleteHandler after_hooks_env example_handlers entityMeta
    (mkRequest tt "0" None) ([failing_mock], []) =
    (Error "after delete failed" StatusInternalServerError,
     ([], [Storage (DbFirst 0); Storage (DbDelete 0);
           HookCalled goblar.AfterDelete])) /\
  DeleteHandler example_env example_handlers entityMeta
    (mkRequest tt "0" None) ([Mock_zero], []) =
    (mkResponse StatusNoContent NoBody,
     ([], [Storage (DbFirst 0); HookCalled goblar.BeforeDelete;
           Storage (DbDelete 0); HookCalled goblar.AfterDelete])).
Proof.
  intros entityMeta.
  split; [|split; [|split; [|split; [|split; [|split]]]]].
  - pose proof (DeleteHandler_outcomes example_env example_handlers entityMeta
                  (mkRequest tt "" None) [Mock_zero] []) as H.
    cbv zeta in H. eapply (proj1 H). reflexivity.
  - pose proof (DeleteHandler_outcomes example_env example_handlers entityMeta
                  (mkRequest tt "7" None) [Mock_zero] []) as H.
    cbv zeta in H. eapply (proj1 (proj2 H) 7%Z); reflexivity.
  - pose proof (DeleteHandler_outcomes closed_env example_handlers entityMeta
                  (mkRequest tt "0" None) [Mock_zero] []) as H.
    cbv zeta in H. eapply (proj1 (proj2 (proj2 H)) 0%Z); reflexivity.
  - pose proof (DeleteHandler_outcomes example_env example_handlers entityMeta
                  (mkRequest tt "0" None) [failing_mock] []) as H.
    cbv zeta in H. eapply (proj1 (proj2 (proj2 (proj2 H))) 0%Z); reflexivity.
  - pose proof (DeleteHandler_outcomes readonly_env example_handlers entityMeta
                  (mkRequest tt "0" None) [Mock_zero] []) as H.
    cbv zeta in H.
    eapply (proj1 (proj2 (proj2 (proj2 (proj2 H)))) 0%Z _ _ _ _ _
              (OtherError "attempt to write a readonly database"));
      reflexivity.
  - pose proof (DeleteHandler_outcomes after_hooks_env example_handlers entityMeta
                  (mkRequest tt "0" None) [failing_mock] []) as H.
    cbv zeta in H.
    eapply (proj1 (proj2 (proj2 (proj2 (proj2 (proj2 H))))) 0%Z); reflexivity.
  - pose proof (DeleteHandler_outcomes example_env example_handlers entityMeta
                  (mkRequest tt "0" None) [Mock_zero] []) as H.
    cbv zeta in H.
    eapply (proj2 (proj2 (proj2 (proj2 (proj2 (proj2 H))))) 0%Z); reflexivity.
Defined.

Lemma read_handlers_outcomes_witness :
  let entityMeta := meta.Parse_new User User_fields in
  GetHandler example_env example_handlers entityMeta
    (mkRequest tt "seven" None) ([Mock_zero], []) =
    (Error "Invalid ID" StatusBadRequest, ([Mock_zero], [])) /\
  GetHandler example_env example_handlers entityMeta
    (mkRequest tt "7" None) ([Mock_zero], []) =
    (Error "Not found" StatusNotFound, ([Mock_zero], [Storage (DbFirst 7)])) /\
  GetHandler closed_env example_handlers entityMeta
    (mkRequest tt "0" None) ([Mock_zero], []) =
    (Error "sql: database is closed" StatusInternalServerError,
     ([Mock_zero], [Storage (DbFirst 0)])) /\
  GetHandler example_env example_handlers entityMeta
    (mkRequest tt "0" None) ([failing_mock], []) =
    (mkResponse StatusOK (JSON failing_mock),
     ([failing_mock], [Storage (DbFirst 0)])) /\
  ListHandler closed_env example_handlers entityMeta
    (mkRequest tt "" None) ([Mock_zero], []) =
    (Error "sql: database is closed" StatusInternalServerError,
     ([Mock_zero], [Storage DbFind])) /\
  ListHandler example_env example_handlers entityMeta
    (mkRequest tt "" None) ([Mock_zero; failing_mock], []) =
    (mkResponse StatusOK (JSONList [Mock_zero; failing_mock]),
     ([Mock_zero; failing_mock], [Storage DbFind])).
Proof.
  intros entityMeta.
  split; [|split; [|split; [|split; [|split]]]].
  - pose proof (read_handlers_outcomes example_env example_handlers entityMeta
                  (mkRequest tt "seven" None) [Mock_zero] []) as H.
    cbv zeta in H. eapply (proj1 H). reflexivity.
  - pose proof (read_handlers_outcomes example_env example_handlers entityMeta
                  (mkRequest tt "7" None) [Mock_zero] []) as H.
    cbv zeta in H. eapply (proj1 (proj2 H) 7%Z); reflexivity.
  - pose proof (read_handlers_outcomes closed_env example_handlers entityMeta
                  (mkRequest tt "0" None) [Mock_zero] []) as H.
    cbv zeta in H. eapply (proj1 (proj2 (proj2 H)) 0%Z); reflexivity.
  - pose proof (read_handlers_outcomes example_env example_handlers entityMeta
                  (mkRequest tt "0" None) [failing_mock] []) as H.
    cbv zeta in H. eapply (proj1 (proj2 (proj2 (proj2 H))) 0%Z); reflexivity.
  - pose proof (read_handlers_outcomes closed_env example_handlers entityMeta
                  (mkRequest tt "" None) [Mock_zero] []) as H.
    cbv zeta in H.
    eapply (proj1 (proj2 (proj2 (proj2 (proj2 H))))
              (OtherError "sql: database is closed"));
      reflexivity.
  - pose proof (read_handlers_outcomes example_env example_handlers entityMeta
                  (mkRequest tt "" None) [Mock_zero; failing_mock] []) as H.
    cbv zeta in H.
    eapply (proj2 (proj2 (proj2 (proj2 (proj2 H))))); reflexivity.
Defined.

(** The example environment at work: a create, a read of the row, and a
    read of a missing row. *)
Example handlers_round_trip :
  let entityMeta := meta.Parse_new User User_fields in
  let created := CreateHandler example_env example_handlers entityMeta
                   (mkRequest tt "" (Some Mock_zero)) ([], []) in
  status (fst created) = 201 /\
  snd (snd created) = [HookCalled goblar.BeforeCreate; Storage DbCreate;
                       HookCalled goblar.AfterCreate] /\
  status (fst (GetHandler example_env example_handlers entityMeta
                 (mkRequest tt "0" None) (fst (snd created), []))) = 200 /\
  status (fst (GetHandler example_env example_handlers entityMeta
                 (mkRequest tt "7" None) (fst (snd created), []))) = 404 /\
  status (fst (GetHandler example_env example_handlers entityMeta
                 (mkRequest tt "seven" None) (fst (snd created), []))) = 400.
Proof. repeat split; reflexivity. Qed.

End HandlersExample.

Section AppFurther.
Import reflect app.
Context {Handle Middleware Handler Store : Type}.
Variable AutoMigrate : Handle -> any -> Store -> option error * Store.
Variable ListenAndServe : string -> option Handler -> error.

Lemma apply_settings (l : list (Setting Handle Middleware)) :
  forall c : config Handle Middleware,
  apply c (map option_of l) =
  mkConfig (default (cfg_db c) (last (db_settings l)))
           (default (addr c) (last (address_settings l)))
           (middleware c ++ middleware_settings l).
Proof.
  induction l as [|s l IH]; intros c.
  - cbn. rewrite app_nil_r. by destruct c.
  - cbn [map apply foldl]. change (foldl _ ?c0 (map option_of l))
      with (apply c0 (map option_of l)). rewrite IH.
    unfold db_settings, address_settings, middleware_settings.
    destruct s as [d|a|m]; cbn [option_of WithDB WithAddress WithMiddleware
      cfg_db addr middleware omap list_omap]; rewrite ?last_cons.
    + fold (db_settings l).
      by destruct (last (db_settings l)).
    + fold (address_settings l).
      by destruct (last (address_settings l)).
    + by rewrite <- app_assoc.
Qed.

Lemma New_db (l : list (Setting Handle Middleware)) :
  db (New (Handler := Handler) (map option_of l))
  = default None (last (db_settings l)).
Proof. unfold New; cbv zeta. by rewrite apply_settings. Qed.

(** X22: New applies its options from left to right: of the options
    built with WithDB, WithAddress and WithMiddleware the last WithDB and
    the last WithAddress count, the address being :8080 and the handle nil
    without one, and the middlewares are kept in the order given; the new
    App has the configured handle, no router and an empty registry. *)
Theorem New_applies_options (l : list (Setting Handle Middleware)) :
  let a : App Handle Middleware Handler := New (map option_of l) in
  db a = default None (last (db_settings l)) /\
  cfg_db (cfg a) = db a /\
  addr (cfg a) = default ":8080" (last (address_settings l)) /\
  middleware (cfg a) = middleware_settings l /\
  router a = None /\
  registry a = ∅.
Proof.
  intros a. subst a. unfold New; cbv zeta. rewrite apply_settings.
  by repeat split.
Qed.

(** X23: without a driver handle nothing is registered. On an App built
    from options of which none, or the last WithDB, gives a nil handle,
    Register returns the error database not configured for any models, and
    App, parser and storage stay as they were. Run builds its App without
    options, so Run always returns this error and never starts a server. *)
Theorem Register_needs_handle :
  (forall (l : list (Setting Handle Middleware)) models (w : World Store),
     default None (last (db_settings l)) = None ->
     Register AutoMigrate (New (Handler := Handler) (map option_of l)) models w =
     (Returned (Some "database not configured: use WithDB option"),
      (New (map option_of l), w))) /\
  (forall models (w : World Store),
     @Run Handle Middleware Handler Store AutoMigrate ListenAndServe models w =
     (Returned (Some "database not configured: use WithDB option"), w)).
Proof.
  split.
  - intros l models w Hnil. unfold Register. by rewrite New_db, Hnil.
  - intros models w. reflexivity.
Qed.

Lemma Register_models_keeps_db h models : forall (a : App Handle Middleware Handler) w a' w',
  Register_models AutoMigrate h models a w = (Returned None, (a', w')) ->
  db a' = db a.
Proof.
  induction models as [|model rest IH]; intros a w a' w'; cbn [Register_models].
  - by intros [= <- _].
  - destruct (meta.Parse model (parser w)) as [[entityMeta [e|]|] st]; try discriminate.
    destruct (AutoMigrate h model (store w)) as [[e|] store']; try discriminate.
    destruct (entityMeta ≫= meta.deref st) as [d|]; try discriminate.
    destruct entityMeta as [p|]; try discriminate.
    intros H. by rewrite (IH _ _ _ _ H).
Qed.

Lemma Register_models_app h ms1 ms2 : forall (a : App Handle Middleware Handler) w,
  Register_models AutoMigrate h (ms1 ++ ms2) a w =
  match Register_models AutoMigrate h ms1 a w with
  | (Returned None, (a', w')) => Register_models AutoMigrate h ms2 a' w'
  | other => other
  end.
Proof.
  induction ms1 as [|model rest IH]; intros a w; [reflexivity|].
  cbn [app Register_models].
  destruct (meta.Parse model (parser w)) as [[entityMeta [e|]|] st]; try reflexivity.
  destruct (AutoMigrate h model (store w)) as [[e|] store']; try reflexivity.
  destruct (entityMeta ≫= meta.deref st) as [d|]; try reflexivity.
  destruct entityMeta as [p|]; try reflexivity.
  apply IH.
Qed.

(** X24: registering models in one call of Register is registering them
    in several calls one after the other: Register(ms1 ++ ms2) does what
    Register(ms1) does and then, if that returned nil, what Register(ms2)
    does on the App and world it left; after an error or a panic nothing
    of ms2 is looked at. *)
Theorem Register_in_sequence (a : App Handle Middleware Handler) ms1 ms2 w :
  Register AutoMigrate a (ms1 ++ ms2) w =
  match Register AutoMigrate a ms1 w with
  | (Returned None, (a', w')) => Register AutoMigrate a' ms2 w'
  | other => other
  end.
Proof.
  unfold Register. destruct (db a) as [h|] eqn:Edb; [|reflexivity].
  rewrite Register_models_app.
  destruct (Register_models AutoMigrate h ms1 a w) as [[[e|]|] [a' w']] eqn:E;
    try reflexivity.
  by rewrite (Register_models_keeps_db _ _ _ _ _ _ E), Edb.
Qed.

(** X25: registering one struct (or pointer-to-struct) model not yet
    parsed, on an App with a driver handle. If the migration succeeds,
    Register returns nil, the descriptor is cached by the parser under the
    type's String() and entered in the App's registry under the type's
    name, both entries being the same pointer. If the migration fails,
    Register returns the driver's error behind failed to migrate model
    <type>: and leaves the App's registry as it was, but the descriptor
    stays cached by the parser. *)
Theorem Register_struct_model (a : App Handle Middleware Handler) h
    str name fields ptr w :
  db a = Some h ->
  meta.registry (parser w) !! str = None ->
  let t := TStruct str name fields in
  let model := meta.entity_of t ptr in
  let p := length (meta.heap (parser w)) in
  let parsed := meta.mkState (meta.heap (parser w) ++ [meta.Parse_new t fields])
                             (<[str := p]> (meta.registry (parser w))) in
  (forall store',
     AutoMigrate h model (store w) = (None, store') ->
     Register AutoMigrate a [model] w =
       (Returned None,
        (mkApp (db a) (router a) (cfg a) (<[name := p]> (registry a)),
         mkWorld parsed store' (served w)))) /\
  (forall e store',
     AutoMigrate h model (store w) = (Some e, store') ->
     Register AutoMigrate a [model] w =
       (Returned (Some ("failed to migrate model " +:+ type_name model
                        +:+ ": " +:+ e)),
        (a, mkWorld parsed store' (served w)))).
Proof.
  intros Hdb Hmiss t model p parsed. subst t model p parsed.
  unfold Register. rewrite Hdb. cbn [Register_models].
  rewrite (Parse_struct_miss _ _ _ _ _ Hmiss). split.
  - intros store' Hm. rewrite Hm. cbn [mbind option_bind].
    unfold meta.deref. cbn [meta.heap].
    rewrite lookup_app_r, Nat.sub_diag by done. cbn [lookup list_lookup].
    by rewrite (Parse_new_Name (TStruct str name fields) fields), Hdb.
  - intros e store' Hm. by rewrite Hm.
Qed.

End AppFurther.

Section AppExample.
Import reflect app app_example entities.

Lemma Register_needs_handle_witness :
  default None (last (db_settings example_settings)) = None /\
  Register example_AutoMigrate
    (New (Handler := unit) (map option_of example_settings))
    [Some (TPtr User)] example_world =
    (Returned (Some "database not configured: use WithDB option"),
     (New (map option_of example_settings), example_world)).
Proof.
  split; [reflexivity|].
  apply (proj1 (Register_needs_handle example_AutoMigrate example_ListenAndServe)
           example_settings).
  reflexivity.
Defined.

Lemma Register_struct_model_witness :
  db example_app = Some tt /\
  meta.registry (parser example_world) !! "main.User" = None /\
  fst (Register example_AutoMigrate example_app [Some (TPtr User)] example_world)
    = Returned None /\
  registry (fst (snd (Register example_AutoMigrate example_app
                        [Some (TPtr User)] example_world)))
    = {[ "User" := 0 ]} /\
  Register example_AutoMigrate example_app [Some (TPtr Order)] example_world =
    (Returned (Some "failed to migrate model *main.Order: no such table"),
     (example_app,
      mkWorld (meta.mkState [meta.Parse_new Order Order_fields]
                            {[ "main.Order" := 0 ]}) [] [])).
Proof.
  split; [reflexivity|]. split; [reflexivity|].
  pose proof (Register_struct_model example_AutoMigrate example_app tt
                "main.User" "User" User_fields true example_world
                eq_refl eq_refl) as [Hok _].
  pose proof (Register_struct_model example_AutoMigrate example_app tt
                "main.Order" "Order" Order_fields true example_world
                eq_refl eq_refl) as [_ Hfail].
  cbv zeta in Hok, Hfail.
  pose proof (Hok ["*main.User"] eq_refl) as E1.
  pose proof (Hfail "no such table" [] eq_refl) as E2.
  split; [exact (f_equal fst E1)|].
  split; [exact (f_equal (fun out => registry (fst (snd out))) E1)|].
  exact E2.
Defined.

(** Register(&User{}, &Order{}) registers User and stops at Order. *)
Example Register_stops_at_failure :
  let out := Register example_AutoMigrate example_app
               [Some (TPtr User); Some (TPtr Order); Some (TPtr Product)]
               example_world in
  fst out = Returned (Some "failed to migrate model *main.Order: no such table") /\
  map_to_list (registry (fst (snd out))) = [("User", 0)] /\
  map_to_list (meta.registry (parser (snd (snd out))))
    ≡ₚ [("main.User", 0); ("main.Order", 1)] /\
  store (snd (snd out)) = ["*main.User"].
Proof.
  repeat split; try reflexivity.
  vm_compute. apply perm_swap || reflexivity.
Qed.

End AppExample.

Section RepositoryFurther.
Import repo.
Context {T Id Ctx Handle Store : Type}.
Variable driver : @Driver T Id Ctx Handle Store.

(** X26: with a driver handle every repository operation makes exactly one
    driver call, of its own kind, and returns the driver's error as it is.
    GetByID returns an entity or an error, never both and never neither;
    GetAll returns no entities together with an error; Create, Update and
    Count hand back what the driver produced, Count also when the driver
    reports an error. *)
Theorem Repository_passes_through h meta (ctx : Ctx) (entity : T) (id : Id)
    (store : Store) (ops : list Op) :
  let r : @Repository Handle := New (Some h) meta in
  let s := (store, ops) in
  (fst (Create driver r ctx entity s) = fst (drvCreate driver h ctx entity store) /\
   snd (Create driver r ctx entity s)
     = (snd (drvCreate driver h ctx entity store), ops ++ [OpCreate])) /\
  (snd (fst (GetByID driver r ctx id s)) = snd (fst (drvFirst driver h ctx id store)) /\
   ((exists e, fst (GetByID driver r ctx id s) = (Some e, None)) \/
    (exists err, fst (GetByID driver r ctx id s) = (None, Some err))) /\
   snd (GetByID driver r ctx id s)
     = (snd (drvFirst driver h ctx id store), ops ++ [OpFirst])) /\
  (snd (fst (GetAll driver r ctx s)) = snd (fst (drvFind driver h ctx store)) /\
   (snd (fst (GetAll driver r ctx s)) = None \/
    fst (fst (GetAll driver r ctx s)) = []) /\
   snd (GetAll driver r ctx s)
     = (snd (drvFind driver h ctx store), ops ++ [OpFind])) /\
  (fst (Update driver r ctx entity s) = fst (drvSave driver h ctx entity store) /\
   snd (Update driver r ctx entity s)
     = (snd (drvSave driver h ctx entity store), ops ++ [OpSave])) /\
  (fst (Delete driver r ctx id s) = fst (drvDelete driver h ctx id store) /\
   snd (Delete driver r ctx id s)
     = (snd (drvDelete driver h ctx id store), ops ++ [OpDelete])) /\
  (fst (Count driver r ctx s) = fst (drvCount driver h ctx store) /\
   snd (Count driver r ctx s)
     = (snd (drvCount driver h ctx store), ops ++ [OpCount])).
Proof.
  intros r s. subst r s.
  unfold Create, GetByID, GetAll, Update, Delete, Count, storage;
    cbn [New db fst snd].
  split; [by destruct (drvCreate driver h ctx entity store)|].
  split.
  { destruct (drvFirst driver h ctx id store) as [[e0 [err0|]] st0];
      cbn [fst snd]; (split; [reflexivity|split; [eauto|reflexivity]]). }
  split.
  { destruct (drvFind driver h ctx store) as [[es0 [err0|]] st0];
      cbn [fst snd]; (split; [reflexivity|split; [eauto|reflexivity]]). }
  split; [by destruct (drvSave driver h ctx entity store)|].
  split; [by destruct (drvDelete driver h ctx id store)|].
  by destruct (drvCount driver h ctx store).
Qed.

End RepositoryFurther.
